(** * NFS server statistics: the parser of /proc/net/rpc/nfsd (nfsd.go)

    A shallow embedding of [parseNFSdReplyCache] and [NewNFSdRPCStats]
    together with the parts of the Go standard library they call
    ([strconv.ParseInt], [strings.Fields], [bufio.Scanner] with its default
    line splitter), followed by the properties of the parser.

    Conventions.  A Go [string] is a [string] of bytes; a [uint64] is a [Z]
    with the wrap-around written out; a Go [(T, error)] result is a
    [result T]; every [fmt.Errorf] site of nfsd.go is one constructor of
    [error] carrying the values that the format verbs print. *)

From Stdlib Require Import ZArith NArith List String Ascii Bool Lia.
From Stdlib Require Decimal DecimalString DecimalN.
Import ListNotations.

Open Scope string_scope.
Open Scope Z_scope.

(** ** Machine integers *)

Definition two64 : Z := 2 ^ 64.
Definition maxUint64 : Z := two64 - 1.

(** Conversion of an [int64] to [uint64]: two's complement wrap-around. *)
Definition uint64 (i : Z) : Z := i mod two64.

(** ** strconv *)

Module strconv.

Inductive NumError : Set := ErrSyntax | ErrRange.

Definition byte (c : ascii) : Z := Z.of_N (N_of_ascii c).

Definition isDigit (c : ascii) : bool := (48 <=? byte c) && (byte c <=? 57).

(** [cutoff] is the smallest [n] such that [n * 10] overflows 64 bits. *)
Definition cutoff : Z := maxUint64 / 10 + 1.

(** The digit loop of [ParseUint(s, 10, 64)]: it stops at the first byte
    that is not a decimal digit (syntax error, value 0) and at the first
    overflow (range error, value [maxUint64]). *)
Fixpoint digits (n : Z) (s : string) : Z * option NumError :=
  match s with
  | EmptyString => (n, None)
  | String c s' =>
      if isDigit c then
        let d := byte c - 48 in
        if cutoff <=? n then (maxUint64, Some ErrRange)
        else
          let n10 := n * 10 in
          let n1 := (n10 + d) mod two64 in
          if (n1 <? n10) || (maxUint64 <? n1) then (maxUint64, Some ErrRange)
          else digits n1 s'
      else (0, Some ErrSyntax)
  end.

Definition ParseUint (s : string) : Z * option NumError :=
  match s with
  | EmptyString => (0, Some ErrSyntax)
  | _ => digits 0 s
  end.

(** Modelled from the spec: the base, 10, and the size, 64 bits, of the
    conversion; the calls of nfsd.go pass the token alone, and the counters
    of the specification are base-10 64-bit integers.
    [ParseInt(s, 10, 64)] reads an optional sign, calls [ParseUint], and
    checks the range against [1 << 63]. *)
Definition ParseInt (s : string) : Z * option NumError :=
  match s with
  | EmptyString => (0, Some ErrSyntax)
  | String c0 s1 =>
      let neg := Ascii.eqb c0 "-" in
      let s' := if Ascii.eqb c0 "+" then s1 else if neg then s1 else s in
      let '(un, err) := ParseUint s' in
      match err with
      | Some ErrSyntax => (0, Some ErrSyntax)
      | _ =>
          let cut := 2 ^ 63 in
          if negb neg && (cut <=? un) then (cut - 1, Some ErrRange)
          else if neg && (cut <? un) then (- cut, Some ErrRange)
          else (if neg then - un else un, None)
      end
  end.

End strconv.

(** ** strings *)

Module strings.

Definition byte (c : ascii) : N := N_of_ascii c.

(** The table [asciiSpace]: tab, line feed, vertical tab, form feed,
    carriage return, space. *)
Definition asciiSpace (c : ascii) : bool :=
  let b := byte c in
  ((9 <=? b) && (b <=? 13) || (b =? 32))%N.

(** Width in bytes of the white-space rune whose UTF-8 encoding starts
    [s], and 0 when [s] does not start with one.  Beyond the six ASCII
    bytes, [unicode.IsSpace] holds of U+0085, U+00A0, U+1680,
    U+2000..U+200A, U+2028, U+2029, U+202F, U+205F and U+3000.  A lead
    byte is never a continuation byte, so matching these encodings at
    every byte offset agrees with decoding the string rune by rune. *)
Definition spaceWidth (s : string) : nat :=
  match s with
  | EmptyString => 0%nat
  | String c0 s1 =>
      if asciiSpace c0 then 1%nat
      else
        match s1 with
        | EmptyString => 0%nat
        | String c1 s2 =>
            let b0 := byte c0 in
            let b1 := byte c1 in
            if ((b0 =? 194) && ((b1 =? 133) || (b1 =? 160)))%N then 2%nat
            else
              match s2 with
              | EmptyString => 0%nat
              | String c2 _ =>
                  let b2 := byte c2 in
                  if ((b0 =? 225) && (b1 =? 154) && (b2 =? 128)
                      || (b0 =? 226) && (b1 =? 128)
                         && ((128 <=? b2) && (b2 <=? 138)
                             || (b2 =? 168) || (b2 =? 169) || (b2 =? 175))
                      || (b0 =? 226) && (b1 =? 129) && (b2 =? 159)
                      || (b0 =? 227) && (b1 =? 128) && (b2 =? 128))%N
                  then 3%nat
                  else 0%nat
              end
        end
  end.

Definition consField (w : string) (fs : list string) : list string :=
  match w with
  | EmptyString => fs
  | _ => w :: fs
  end.

(** [split skip s] is the pair of the field that is being read at the
    start of [s] (empty when [s] starts with white space) and of the
    fields after it; [skip] counts the bytes of a white-space rune that
    are still to be passed over. *)
Fixpoint split (skip : nat) (s : string) : string * list string :=
  match s with
  | EmptyString => (EmptyString, [])
  | String c s' =>
      match skip with
      | S k => let '(w, fs) := split k s' in (EmptyString, consField w fs)
      | O =>
          match spaceWidth s with
          | O => let '(w, fs) := split 0 s' in (String c w, fs)
          | S k => let '(w, fs) := split k s' in (EmptyString, consField w fs)
          end
      end
  end.

(** [Fields] splits [s] around each run of white space; the result has no
    empty string, and is empty when [s] holds white space only. *)
Definition Fields (s : string) : list string :=
  let '(w, fs) := split 0 s in consField w fs.

End strings.

(** ** bufio *)

Module bufio.

Definition MaxScanTokenSize : N := 65536.

(** What [Scanner.Err] reports: a line that does not fit the buffer, or
    the error of the underlying reader (never [io.EOF]). *)
Inductive ScanError : Set :=
| ErrTooLong
| ReadError (e : string).

(** [dropCR], on the bytes of a line in reverse order. *)
Definition dropCR (rev_line : list ascii) : list ascii :=
  match rev_line with
  | c :: r => if Ascii.eqb c "013" then r else rev_line
  | [] => []
  end.

Definition token (rev_line : list ascii) : string :=
  string_of_list_ascii (rev (dropCR rev_line)).

(** The lines that successive calls of [Scan] return with the splitter
    [ScanLines]: [cur] holds the [n] bytes read since the last line feed,
    in reverse.  A line ends at a line feed, which is dropped with one
    carriage return before it; the last line needs no line feed, and is
    not returned when it is empty.  Scanning stops with [ErrTooLong] when
    the buffer, at its largest size, holds no line feed. *)
Fixpoint scan (cur : list ascii) (n : N) (s : string)
  : list string * option ScanError :=
  match s with
  | EmptyString =>
      (match cur with [] => [] | _ => [token cur] end, None)
  | String c s' =>
      if Ascii.eqb c "010" then
        let '(ls, e) := scan [] 0%N s' in (token cur :: ls, e)
      else if (MaxScanTokenSize <=? n + 1)%N then ([], Some ErrTooLong)
      else scan (c :: cur) (n + 1)%N s'
  end.

End bufio.

(** ** os *)

(** An opened file, as the scanner sees it: its name, the bytes that [Read]
    delivers, and the error other than [io.EOF], if any, with which [Read]
    stops after them. *)
Record File : Set := {
  Name : string;
  contents : string;
  readErr : option string
}.

(** The outcome of [os.Open(fs.Path("net/rpc/nfsd"))]. *)
Inductive Opened : Set :=
| OpenFailed (e : string)
| OpenOk (f : File).

(** ** The records of nfsd.go

    One module per struct, with the fields in the declared order and the
    zero value that Go gives to a value of the struct. *)

(** rc line: reply cache. *)
Module NFSdReplyCache.
Record t : Set := { Hits : Z; Misses : Z; NoCache : Z }.
Definition zero : t := {| Hits := 0; Misses := 0; NoCache := 0 |}.
End NFSdReplyCache.

(** fh line: file handles. *)
Module NFSdFileHandles.
Record t : Set := { Stale : Z; TotalLookups : Z; AnonLookups : Z;
                    DirNoCache : Z; NoDirNoCache : Z }.
Definition zero : t :=
  {| Stale := 0; TotalLookups := 0; AnonLookups := 0;
     DirNoCache := 0; NoDirNoCache := 0 |}.
End NFSdFileHandles.

(** io line: input and output. *)
Module NFSdInputOutput.
Record t : Set := { Read : Z; Write : Z }.
Definition zero : t := {| Read := 0; Write := 0 |}.
End NFSdInputOutput.

(** th line: threads. *)
Module NFSdThreads.
Record t : Set := { Threads : Z; FullCnt : Z }.
Definition zero : t := {| Threads := 0; FullCnt := 0 |}.
End NFSdThreads.

(** ra line: read-ahead cache; [CacheHistogram] is a [[10]uint64]. *)
Module NFSdReadAheadCache.
Record t : Set := { CacheSize : Z; CacheHistogram : list Z; NotFound : Z }.
Definition zero : t :=
  {| CacheSize := 0; CacheHistogram := repeat 0 10; NotFound := 0 |}.
End NFSdReadAheadCache.

(** net line: network. *)
Module NFSdNetwork.
Record t : Set := { NetCount : Z; UDPCount : Z; TCPCount : Z;
                    TCPConnect : Z }.
Definition zero : t :=
  {| NetCount := 0; UDPCount := 0; TCPCount := 0; TCPConnect := 0 |}.
End NFSdNetwork.

(** rpc line. *)
Module NFSdRPC.
Record t : Set := { RPCCount : Z; BadCnt : Z; BadFmt : Z; BadAuth : Z;
                    BadcInt : Z }.
Definition zero : t :=
  {| RPCCount := 0; BadCnt := 0; BadFmt := 0; BadAuth := 0; BadcInt := 0 |}.
End NFSdRPC.

(** proc2 line: NFSv2 statistics; [Values] should be 18. *)
Module NFSdv2Stats.
Record t : Set := { Values : Z; Null : Z; GetAttr : Z; SetAttr : Z;
                    Root : Z; Lookup : Z; ReadLink : Z; Read : Z;
                    WrCache : Z; Write : Z; Create : Z; Remove : Z;
                    Rename : Z; Link : Z; SymLink : Z; MkDir : Z;
                    RmDir : Z; ReadDir : Z; FsStat : Z }.
Definition zero : t :=
  {| Values := 0; Null := 0; GetAttr := 0; SetAttr := 0; Root := 0;
     Lookup := 0; ReadLink := 0; Read := 0; WrCache := 0; Write := 0;
     Create := 0; Remove := 0; Rename := 0; Link := 0; SymLink := 0;
     MkDir := 0; RmDir := 0; ReadDir := 0; FsStat := 0 |}.
End NFSdv2Stats.

(** proc3 line: NFSv3 statistics; [Values] should be 22. *)
Module NFSdv3Stats.
Record t : Set := { Values : Z; Null : Z; GetAttr : Z; SetAttr : Z;
                    Lookup : Z; Access : Z; ReadLink : Z; Read : Z;
                    Write : Z; Create : Z; MkDir : Z; SymLink : Z;
                    MkNod : Z; Remove : Z; RmDir : Z; Rename : Z;
                    Link : Z; ReadDir : Z; ReadDirPlus : Z; FsStat : Z;
                    FsInfo : Z; PathConf : Z; Commit : Z }.
Definition zero : t :=
  {| Values := 0; Null := 0; GetAttr := 0; SetAttr := 0; Lookup := 0;
     Access := 0; ReadLink := 0; Read := 0; Write := 0; Create := 0;
     MkDir := 0; SymLink := 0; MkNod := 0; Remove := 0; RmDir := 0;
     Rename := 0; Link := 0; ReadDir := 0; ReadDirPlus := 0; FsStat := 0;
     FsInfo := 0; PathConf := 0; Commit := 0 |}.
End NFSdv3Stats.

(** proc4 line: NFSv4 statistics; [Values] should be 2. *)
Module NFSdv4Stats.
Record t : Set := { Values : Z; Null : Z; Compound : Z }.
Definition zero : t := {| Values := 0; Null := 0; Compound := 0 |}.
End NFSdv4Stats.

(** proc4ops line: NFSv4 operations; [Values] varies with the minor
    version of the protocol. *)
Module NFSdv4Ops.
Record t : Set := { Values : Z; Op0Unused : Z; Op1Unused : Z;
                    Op2Future : Z; Access : Z; Close : Z; Commit : Z;
                    Create : Z; DelegPurge : Z; DelegReturn : Z;
                    GetAttr : Z; GetFH : Z; Link : Z; Lock : Z; Lockt : Z;
                    Locku : Z; Lookup : Z; LookupRoot : Z; Nverify : Z;
                    Open : Z; OpenAttr : Z; OpenConfirm : Z; OpenDgrd : Z;
                    PutFH : Z; PutPubFH : Z; PutRootFH : Z; Read : Z;
                    ReadDir : Z; ReadLink : Z; Remove : Z; Rename : Z;
                    Renew : Z; RestoreFH : Z; SaveFH : Z; SecInfo : Z;
                    SetAttr : Z; Verify : Z; Write : Z; RelLockOwner : Z }.
Definition zero : t :=
  {| Values := 0; Op0Unused := 0; Op1Unused := 0; Op2Future := 0;
     Access := 0; Close := 0; Commit := 0; Create := 0; DelegPurge := 0;
     DelegReturn := 0; GetAttr := 0; GetFH := 0; Link := 0; Lock := 0;
     Lockt := 0; Locku := 0; Lookup := 0; LookupRoot := 0; Nverify := 0;
     Open := 0; OpenAttr := 0; OpenConfirm := 0; OpenDgrd := 0; PutFH := 0;
     PutPubFH := 0; PutRootFH := 0; Read := 0; ReadDir := 0; ReadLink := 0;
     Remove := 0; Rename := 0; Renew := 0; RestoreFH := 0; SaveFH := 0;
     SecInfo := 0; SetAttr := 0; Verify := 0; Write := 0;
     RelLockOwner := 0 |}.
End NFSdv4Ops.

(** All statistics of /proc/net/rpc/nfsd.  The source declares a twelfth
    field, [NFSdRPCStats], of the type of the struct itself: such a field
    holds no value (a struct cannot contain itself), and it is left out. *)
Module NFSdRPCStats.
Record t : Set := {
  NFSdReplyCache : NFSdReplyCache.t;
  NFSdFileHandles : NFSdFileHandles.t;
  NFSdInputOutput : NFSdInputOutput.t;
  NFSdThreads : NFSdThreads.t;
  NFSdReadAheadCache : NFSdReadAheadCache.t;
  NFSdNetwork : NFSdNetwork.t;
  NFSdRPC : NFSdRPC.t;
  NFSdv2Stats : NFSdv2Stats.t;
  NFSdv3Stats : NFSdv3Stats.t;
  NFSdv4Stats : NFSdv4Stats.t;
  NFSdv4Ops : NFSdv4Ops.t
}.
Definition zero : t :=
  {| NFSdReplyCache := NFSdReplyCache.zero;
     NFSdFileHandles := NFSdFileHandles.zero;
     NFSdInputOutput := NFSdInputOutput.zero;
     NFSdThreads := NFSdThreads.zero;
     NFSdReadAheadCache := NFSdReadAheadCache.zero;
     NFSdNetwork := NFSdNetwork.zero;
     NFSdRPC := NFSdRPC.zero;
     NFSdv2Stats := NFSdv2Stats.zero;
     NFSdv3Stats := NFSdv3Stats.zero;
     NFSdv4Stats := NFSdv4Stats.zero;
     NFSdv4Ops := NFSdv4Ops.zero |}.
End NFSdRPCStats.

(** ** Errors and results *)

(** One constructor per [fmt.Errorf] (or returned error) of nfsd.go, with
    the values it prints. *)
Inductive error : Set :=
| InvalidReplyCacheLine (line : list string)
    (* "invalid NFSdReplyCache line %q", line *)
| CouldntParseHits (tok : string)
    (* "couldn't parse NFSdReplyCache hits %q", line[0] *)
| CouldntParseMisses (tok : string)
    (* "couldn't parse NFSdReplyCache misses %q", line[1] *)
| CouldntParseNoCache (tok : string)
    (* "couldn't parse NFSdReplyCache nocache %q", line[2] *)
| OpenError (e : string)
    (* the error of os.Open, returned as it is *)
| InvalidMetricLine (line : string)
    (* "invalid NFSd metric line %q", line *)
| ErrorParsingReplyCache (e : error)
    (* "error parsing NFSdReplyCache: %s", err *)
| InvalidMetricKey (metricLine : string)
    (* "invalid NFSd metric line %q", metricLine *)
| CouldntParseFile (name : string) (e : bufio.ScanError).
    (* "couldn't parse %s: %s", f.Name(), err *)

Inductive result (A : Type) : Type :=
| Ok (a : A)
| Err (e : error).
Arguments Ok {A} a.
Arguments Err {A} e.

(** The format string of each error. *)
Definition format (e : error) : string :=
  match e with
  | InvalidReplyCacheLine _ => "invalid NFSdReplyCache line %q"
  | CouldntParseHits _ => "couldn't parse NFSdReplyCache hits %q"
  | CouldntParseMisses _ => "couldn't parse NFSdReplyCache misses %q"
  | CouldntParseNoCache _ => "couldn't parse NFSdReplyCache nocache %q"
  | OpenError _ => "%s"
  | InvalidMetricLine _ => "invalid NFSd metric line %q"
  | ErrorParsingReplyCache _ => "error parsing NFSdReplyCache: %s"
  | InvalidMetricKey _ => "invalid NFSd metric line %q"
  | CouldntParseFile _ _ => "couldn't parse %s: %s"
  end.

(** ** parseNFSdReplyCache *)

(** The decoder of the value tokens of an rc line, called with [parts[1:]].
    The length test comes first, then the three tokens are converted from
    left to right, and the first failure returns.  The [int64] results of
    [strconv.ParseInt] go to [uint64] fields: the conversion is [uint64]. *)
Definition parseNFSdReplyCache (line : list string)
  : result NFSdReplyCache.t :=
  match line with
  | [l0; l1; l2] =>
      match strconv.ParseInt l0 with
      | (_, Some _) => Err (CouldntParseHits l0)
      | (hits, None) =>
          match strconv.ParseInt l1 with
          | (_, Some _) => Err (CouldntParseMisses l1)
          | (misses, None) =>
              match strconv.ParseInt l2 with
              | (_, Some _) => Err (CouldntParseNoCache l2)
              | (nocache, None) =>
                  Ok {| NFSdReplyCache.Hits := uint64 hits;
                        NFSdReplyCache.Misses := uint64 misses;
                        NFSdReplyCache.NoCache := uint64 nocache |}
              end
          end
      end
  | _ => Err (InvalidReplyCacheLine line)
  end.

(** ** NewNFSdRPCStats *)

(** The body of the scanning loop on one line.  [stats] is the variable
    [NFSdRPCStats] of the source; [Ok] is the fall through to the next
    iteration, with the value of that variable. *)
Definition scanLine (stats : NFSdRPCStats.t) (line : string)
  : result NFSdRPCStats.t :=
  let parts := strings.Fields line in
  match parts with
  | metricLine :: ((_ :: _) as values) =>
      if String.eqb metricLine "rc" then
        match parseNFSdReplyCache values with
        | Err e => Err (ErrorParsingReplyCache e)
        | Ok replyCache => Ok stats
        end
      else if String.eqb metricLine "fh" then Ok stats
      else if String.eqb metricLine "io" then Ok stats
      else if String.eqb metricLine "th" then Ok stats
      else if String.eqb metricLine "ra" then Ok stats
      else if String.eqb metricLine "rpc" then Ok stats
      else if String.eqb metricLine "proc2" then Ok stats
      else if String.eqb metricLine "proc3" then Ok stats
      else if String.eqb metricLine "proc4" then Ok stats
      else if String.eqb metricLine "proc4ops" then Ok stats
      else Err (InvalidMetricKey metricLine)
  | _ => Err (InvalidMetricLine line)
  end.

(** [for scanner.Scan() { ... }] over the lines that the scanner returns. *)
Fixpoint scanLoop (stats : NFSdRPCStats.t) (lines : list string)
  : result NFSdRPCStats.t :=
  match lines with
  | [] => Ok stats
  | line :: rest =>
      match scanLine stats line with
      | Err e => Err e
      | Ok stats' => scanLoop stats' rest
      end
  end.

(** The lines of a file and the value of [scanner.Err()] after them. *)
Definition scanFile (f : File) : list string * option bufio.ScanError :=
  let '(lines, e) := bufio.scan [] 0%N (contents f) in
  (lines,
   match e with
   | Some e => Some e
   | None => option_map bufio.ReadError (readErr f)
   end).

Definition NewNFSdRPCStats (o : Opened) : result NFSdRPCStats.t :=
  match o with
  | OpenFailed e => Err (OpenError e)
  | OpenOk f =>
      let stats := NFSdRPCStats.zero in
      let '(lines, serr) := scanFile f in
      match scanLoop stats lines with
      | Err e => Err e
      | Ok stats =>
          match serr with
          | Some e => Err (CouldntParseFile (Name f) e)
          | None => Ok stats
          end
      end
  end.

(** The parse of a byte stream: the file opens and is read to its end. *)
Definition parse (bytes : string) : result NFSdRPCStats.t :=
  NewNFSdRPCStats
    (OpenOk {| Name := "/proc/net/rpc/nfsd"; contents := bytes;
               readErr := None |}).

(** ** The error kinds of the specification *)

Inductive ErrorKind : Set :=
| MalformedLine
| UnknownRecordType
| ArityMismatch
| InvalidNumber
| StreamReadError
| OpenFailure.

(** The kind under which the specification files each error of the code:
    fewer than two tokens on a line; a key outside the catalog; a wrong
    number of value tokens; a token that is not a number; a failure of the
    stream.  An error wrapped by the dispatcher keeps its kind.  Opening
    the file is outside the specification: its failure has a kind of its
    own. *)
Fixpoint spec_kind (e : error) : ErrorKind :=
  match e with
  | InvalidReplyCacheLine _ => ArityMismatch
  | CouldntParseHits _ => InvalidNumber
  | CouldntParseMisses _ => InvalidNumber
  | CouldntParseNoCache _ => InvalidNumber
  | OpenError _ => OpenFailure
  | InvalidMetricLine _ => MalformedLine
  | ErrorParsingReplyCache e' => spec_kind e'
  | InvalidMetricKey _ => UnknownRecordType
  | CouldntParseFile _ _ => StreamReadError
  end.

(** The catalog of record-type keys of the specification. *)
Definition spec_catalog : list string :=
  ["rc"; "fh"; "io"; "th"; "ra"; "net"; "rpc"; "proc2"; "proc3"; "proc4";
   "proc4ops"].

(** ** Input text *)

Definition LF : string := String "010" EmptyString.

(** The bytes of a file made of the given lines, each ended by a line
    feed. *)
Fixpoint text (lines : list string) : string :=
  match lines with
  | [] => EmptyString
  | l :: ls => l ++ LF ++ text ls
  end.

(** ** The keys of the dispatcher *)

(** The keys whose case of the [switch] is empty. *)
Definition emptyCases : list string :=
  ["fh"; "io"; "th"; "ra"; "rpc"; "proc2"; "proc3"; "proc4"; "proc4ops"].

(** ** The calls of NewNFSdRPCStats and the state they share

    [NewNFSdRPCStats] declares no variable outside its body: the aggregate
    and the scanner are made anew by each call.  What a call shares with
    the calls before it is the operating system: the files, which it
    reads, and the table of the open descriptors of the process, in which
    [os.Open] takes an entry that the deferred [f.Close()] gives back on
    every [return]. *)

Record World : Type := {
  files : string -> Opened;
    (* what os.Open finds under a name: a file or an error *)
  descriptors : list string;
    (* the names of the files that the process holds open *)
  limit : nat
    (* the number of descriptors that the process may hold *)
}.



(** The table without the descriptor of [name] that was opened last. *)
Fixpoint release (name : string) (ds : list string) : list string :=
  match ds with
  | [] => []
  | d :: ds' => if String.eqb d name then ds' else d :: release name ds'
  end.

(** [f.Close()]. *)
Definition Close (f : File) (w : World) : World :=
  {| files := files w; descriptors := release (Name f) (descriptors w);
     limit := limit w |}.




(** The line is taken by the loop without an error. *)
Definition accepted (line : string) : Prop :=
  scanLine NFSdRPCStats.zero line = Ok NFSdRPCStats.zero.

(** ** Tokens and lines, for the statements below *)

(** Every byte of [s] is a decimal digit. *)
Fixpoint allDigits (s : string) : bool :=
  match s with
  | EmptyString => true
  | String c s' => strconv.isDigit c && allDigits s'
  end.

(** [s] without its sign, when it starts with one: what [strconv.ParseInt]
    hands over to [strconv.ParseUint]. *)
Definition unsigned (s : string) : string :=
  match s with
  | EmptyString => EmptyString
  | String c0 s1 =>
      if Ascii.eqb c0 "+" then s1 else if Ascii.eqb c0 "-" then s1 else s
  end.

(** The decimal writing of a counter, as the kernel prints it: the most
    significant digit first, no sign, no leading zero. *)
Definition decimal (n : Z) : string :=
  DecimalString.NilEmpty.string_of_uint (N.to_uint (Z.to_N n)).

(** The number that a sequence of decimal digits writes after the digits
    of [acc]. *)
Fixpoint uval (acc : Z) (d : Decimal.uint) : Z :=
  match d with
  | Decimal.Nil => acc
  | Decimal.D0 d' => uval (10 * acc) d'
  | Decimal.D1 d' => uval (10 * acc + 1) d'
  | Decimal.D2 d' => uval (10 * acc + 2) d'
  | Decimal.D3 d' => uval (10 * acc + 3) d'
  | Decimal.D4 d' => uval (10 * acc + 4) d'
  | Decimal.D5 d' => uval (10 * acc + 5) d'
  | Decimal.D6 d' => uval (10 * acc + 6) d'
  | Decimal.D7 d' => uval (10 * acc + 7) d'
  | Decimal.D8 d' => uval (10 * acc + 8) d'
  | Decimal.D9 d' => uval (10 * acc + 9) d'
  end.

(** A line that passes the body of the loop, said on its tokens: two
    tokens at least, and either a key whose case is empty, or the key "rc"
    with value tokens that its decoder takes. *)
Definition wellFormedLine (line : string) : Prop :=
  exists key v vs,
    strings.Fields line = key :: v :: vs /\
    (In key emptyCases \/
     (key = "rc" /\ exists r, parseNFSdReplyCache (v :: vs) = Ok r)).

(** What the caller can tell from an error of [NewNFSdRPCStats] about the
    input [o] that produced it. *)
Definition reported (o : Opened) (e : error) : Prop :=
  match e with
  | OpenError msg => o = OpenFailed msg
  | InvalidMetricLine line =>
      exists f, o = OpenOk f /\ In line (fst (scanFile f)) /\
                (List.length (strings.Fields line) < 2)%nat
  | InvalidMetricKey key =>
      exists f line v vs,
        o = OpenOk f /\ In line (fst (scanFile f)) /\
        strings.Fields line = key :: v :: vs /\
        key <> "rc" /\ ~ In key emptyCases
  | ErrorParsingReplyCache e' =>
      exists f line v vs,
        o = OpenOk f /\ In line (fst (scanFile f)) /\
        strings.Fields line = "rc" :: v :: vs /\
        parseNFSdReplyCache (v :: vs) = Err e' /\
        (spec_kind e' = ArityMismatch \/ spec_kind e' = InvalidNumber)
  | CouldntParseFile name se =>
      exists f, o = OpenOk f /\ name = Name f /\ snd (scanFile f) = Some se
  | InvalidReplyCacheLine _ | CouldntParseHits _ | CouldntParseMisses _
  | CouldntParseNoCache _ => False
  end.

(** No byte of [s] is a line feed. *)
Fixpoint noLF (s : string) : bool :=
  match s with
  | EmptyString => true
  | String c s' => negb (Ascii.eqb c "010") && noLF s'
  end.

(** The last byte of [s] is a carriage return. *)
Fixpoint endsWithCR (s : string) : bool :=
  match s with
  | EmptyString => false
  | String c EmptyString => Ascii.eqb c "013"
  | String _ s' => endsWithCR s'
  end.

(** A line that the scanner returns as it was written: no line feed in
    it, no carriage return at its end, fewer bytes than the largest
    buffer. *)
Definition plainLine (l : string) : bool :=
  noLF l && negb (endsWithCR l)
  && (N.of_nat (String.length l) <? bufio.MaxScanTokenSize)%N.

Definition CRLF : string := String "013" LF.

(** The bytes of a file made of the given lines, each ended by a carriage
    return and a line feed. *)
Fixpoint textCRLF (lines : list string) : string :=
  match lines with
  | [] => EmptyString
  | l :: ls => l ++ CRLF ++ textCRLF ls
  end.

(** A string of [n] bytes [c]. *)
Fixpoint replicate (n : nat) (c : ascii) : string :=
  match n with
  | O => EmptyString
  | S n' => String c (replicate n' c)
  end.

(** Every byte of [s] is an ASCII byte other than white space. *)
Fixpoint asciiWord (s : string) : bool :=
  match s with
  | EmptyString => true
  | String c s' =>
      (strings.byte c <? 128)%N && negb (strings.asciiSpace c)
      && asciiWord s'
  end.

(** The rc line as the kernel prints it: the key and three counters in
    decimal, with one space between them. *)
Definition rcLine (hits misses nocache : Z) : string :=
  "rc " ++ decimal hits ++ " " ++ decimal misses ++ " " ++ decimal nocache.

(** * Properties of the parser *)

(** ** The dispatcher, case by case *)

Lemma In_emptyCases_not_rc (key : string) : In key emptyCases -> key <> "rc".
Proof.
  unfold emptyCases; simpl; intros H E; subst key.
  repeat (destruct H as [H | H]; [discriminate H |]); exact H.
Qed.

Lemma scanLine_too_short (stats : NFSdRPCStats.t) (line : string) :
  (List.length (strings.Fields line) < 2)%nat ->
  scanLine stats line = Err (InvalidMetricLine line).
Proof.
  unfold scanLine.
  destruct (strings.Fields line) as [| key [| v vs]]; simpl; intro H;
    try reflexivity; lia.
Qed.

Lemma scanLine_rc (stats : NFSdRPCStats.t) (line v : string)
      (vs : list string) :
  strings.Fields line = "rc" :: v :: vs ->
  scanLine stats line =
    match parseNFSdReplyCache (v :: vs) with
    | Err e => Err (ErrorParsingReplyCache e)
    | Ok _ => Ok stats
    end.
Proof.
  unfold scanLine; intros ->; reflexivity.
Qed.

Lemma scanLine_empty_case (stats : NFSdRPCStats.t) (line key v : string)
      (vs : list string) :
  strings.Fields line = key :: v :: vs ->
  In key emptyCases ->
  scanLine stats line = Ok stats.
Proof.
  unfold scanLine, emptyCases; intros -> H; simpl in H.
  repeat (destruct H as [H | H]; [subst key; reflexivity |]).
  destruct H.
Qed.

Lemma scanLine_default (stats : NFSdRPCStats.t) (line key v : string)
      (vs : list string) :
  strings.Fields line = key :: v :: vs ->
  key <> "rc" ->
  ~ In key emptyCases ->
  scanLine stats line = Err (InvalidMetricKey key).
Proof.
  unfold scanLine, emptyCases; intros -> Hrc Hn; simpl in Hn.
  destruct (String.eqb_spec key "rc") as [E | _]; [contradiction |].
  repeat match goal with
         | |- context [String.eqb key ?k] =>
             destruct (String.eqb_spec key k) as [E | _];
             [exfalso; apply Hn; rewrite E; tauto |]
         end.
  reflexivity.
Qed.

(** The five ways through the body of the loop cover every line. *)
Lemma scanLine_cases (line : string) :
  (List.length (strings.Fields line) < 2)%nat \/
  exists key v vs,
    strings.Fields line = key :: v :: vs /\
    (key = "rc" \/ In key emptyCases \/ (key <> "rc" /\ ~ In key emptyCases)).
Proof.
  destruct (strings.Fields line) as [| key [| v vs]] eqn:E; simpl;
    [left; lia | left; lia |].
  right; exists key, v, vs; split; [reflexivity |].
  destruct (String.eqb_spec key "rc") as [-> | Hrc]; [left; reflexivity |].
  right.
  destruct (in_dec string_dec key emptyCases) as [Hin | Hout];
    [left; exact Hin | right; split; assumption].
Qed.

(** The loop never assigns to its variable. *)
Lemma scanLine_stats (stats stats' : NFSdRPCStats.t) (line : string) :
  scanLine stats line = Ok stats' -> stats' = stats.
Proof.
  destruct (scanLine_cases line) as [Hs | (key & v & vs & E & [-> | [Hin | [Hrc Hout]]])].
  - rewrite (scanLine_too_short _ _ Hs); discriminate.
  - rewrite (scanLine_rc _ _ _ _ E).
    destruct (parseNFSdReplyCache (v :: vs)); congruence.
  - rewrite (scanLine_empty_case _ _ _ _ _ E Hin); congruence.
  - rewrite (scanLine_default _ _ _ _ _ E Hrc Hout); discriminate.
Qed.

(** The outcome on a line does not depend on the statistics read so far. *)
Lemma scanLine_independent (s1 s2 : NFSdRPCStats.t) (line : string) :
  scanLine s2 line =
    match scanLine s1 line with
    | Ok _ => Ok s2
    | Err e => Err e
    end.
Proof.
  unfold scanLine.
  destruct (strings.Fields line) as [| key [| v vs]]; try reflexivity.
  repeat match goal with
         | |- context [String.eqb key ?k] => destruct (String.eqb key k)
         end;
    try reflexivity.
  destruct (parseNFSdReplyCache (v :: vs)); reflexivity.
Qed.

Lemma scanLoop_stats (stats stats' : NFSdRPCStats.t) (lines : list string) :
  scanLoop stats lines = Ok stats' -> stats' = stats.
Proof.
  revert stats; induction lines as [| line rest IH]; simpl; intros stats H.
  - congruence.
  - destruct (scanLine stats line) as [s |] eqn:E; [| discriminate].
    apply scanLine_stats in E; subst s; auto.
Qed.

(** The loop on the lines before the first one that fails. *)
Lemma scanLoop_app (pre post : list string) (line : string)
      (stats : NFSdRPCStats.t) :
  Forall accepted pre ->
  scanLoop stats (pre ++ line :: post) =
    match scanLine stats line with
    | Err e => Err e
    | Ok stats' => scanLoop stats' post
    end.
Proof.
  induction 1 as [| l pre Hl _ IH]; simpl; [reflexivity |].
  rewrite (scanLine_independent NFSdRPCStats.zero stats l).
  unfold accepted in Hl; rewrite Hl; exact IH.
Qed.

Lemma scanLoop_all_accepted (lines : list string) (stats : NFSdRPCStats.t) :
  Forall accepted lines -> scanLoop stats lines = Ok stats.
Proof.
  induction 1 as [| l ls Hl _ IH]; simpl; [reflexivity |].
  rewrite (scanLine_independent NFSdRPCStats.zero stats l).
  unfold accepted in Hl; rewrite Hl; exact IH.
Qed.

(** An error of the loop is the error of its first line that fails. *)
Lemma scanLoop_Err (lines : list string) (stats : NFSdRPCStats.t)
      (e : error) :
  scanLoop stats lines = Err e ->
  exists (pre : list string) (line : string) (post : list string),
    lines = (pre ++ line :: post)%list /\ Forall accepted pre /\
    scanLine stats line = Err e.
Proof.
  induction lines as [| l ls IH]; simpl; [discriminate |].
  destruct (scanLine stats l) as [s |] eqn:E.
  - pose proof (scanLine_stats _ _ _ E); subst s.
    intro H; destruct (IH H) as (pre & line & post & -> & Hpre & Hline).
    exists (l :: pre), line, post; repeat split; auto.
    constructor; [| exact Hpre].
    unfold accepted.
    rewrite (scanLine_independent stats NFSdRPCStats.zero l), E; reflexivity.
  - intro H; injection H as ->.
    exists [], l, ls; repeat split; auto.
Qed.

(** ** The decoder of the rc line *)

(** The errors of [parseNFSdReplyCache]: a wrong number of tokens, or the
    first token, from the left, that [strconv.ParseInt] refuses. *)
Lemma parseNFSdReplyCache_Err (line : list string) (e : error) :
  parseNFSdReplyCache line = Err e ->
  (List.length line <> 3%nat /\ e = InvalidReplyCacheLine line) \/
  (exists l0 l1 l2,
      line = [l0; l1; l2] /\
      ((snd (strconv.ParseInt l0) <> None /\ e = CouldntParseHits l0) \/
       (snd (strconv.ParseInt l0) = None /\
        snd (strconv.ParseInt l1) <> None /\ e = CouldntParseMisses l1) \/
       (snd (strconv.ParseInt l0) = None /\
        snd (strconv.ParseInt l1) = None /\
        snd (strconv.ParseInt l2) <> None /\ e = CouldntParseNoCache l2))).
Proof.
  destruct line as [| l0 [| l1 [| l2 [| l3 ls]]]]; simpl;
    try (intro H; injection H as <-; left; split; [discriminate | reflexivity]).
  destruct (strconv.ParseInt l0) as [h [e0 |]] eqn:E0;
    destruct (strconv.ParseInt l1) as [m [e1 |]] eqn:E1;
    destruct (strconv.ParseInt l2) as [n [e2 |]] eqn:E2;
    simpl; intro H; try discriminate H; injection H as <-;
    right; exists l0, l1, l2; (split; [reflexivity |]);
    rewrite ?E0, ?E1, ?E2; simpl;
    first [ left; split; [discriminate | reflexivity]
          | right; left; repeat split; discriminate
          | right; right; repeat split; discriminate ].
Qed.

Lemma parseNFSdReplyCache_Err_kind (line : list string) (e : error) :
  parseNFSdReplyCache line = Err e ->
  spec_kind e = ArityMismatch \/ spec_kind e = InvalidNumber.
Proof.
  intro H; apply parseNFSdReplyCache_Err in H.
  destruct H as [[_ ->] | (l0 & l1 & l2 & _ & [[_ ->] | [(_ & _ & ->) | (_ & _ & _ & ->)]])];
    simpl; auto.
Qed.

Lemma parseNFSdReplyCache_arity (line : list string) :
  List.length line <> 3%nat ->
  parseNFSdReplyCache line = Err (InvalidReplyCacheLine line).
Proof.
  destruct line as [| l0 [| l1 [| l2 [| l3 ls]]]]; simpl; intro H;
    try reflexivity.
  contradiction H; reflexivity.
Qed.

(** ** The whole parse *)

(** The parse succeeds exactly when the file opens, every line is accepted
    and the scanner reports no error. *)
Lemma NewNFSdRPCStats_Ok (f : File) :
  Forall accepted (fst (scanFile f)) ->
  snd (scanFile f) = None ->
  NewNFSdRPCStats (OpenOk f) = Ok NFSdRPCStats.zero.
Proof.
  unfold NewNFSdRPCStats.
  destruct (scanFile f) as [lines serr]; simpl; intros Hall ->.
  rewrite (scanLoop_all_accepted _ _ Hall); reflexivity.
Qed.

Lemma NewNFSdRPCStats_first_error (f : File) (pre post : list string)
      (line : string) (e : error) :
  fst (scanFile f) = (pre ++ line :: post)%list ->
  Forall accepted pre ->
  scanLine NFSdRPCStats.zero line = Err e ->
  NewNFSdRPCStats (OpenOk f) = Err e.
Proof.
  unfold NewNFSdRPCStats.
  destruct (scanFile f) as [lines serr]; simpl; intros -> Hpre Hline.
  rewrite (scanLoop_app _ _ _ _ Hpre), Hline; reflexivity.
Qed.

Lemma NewNFSdRPCStats_Err (f : File) (e : error) :
  NewNFSdRPCStats (OpenOk f) = Err e ->
  (exists (pre : list string) (line : string) (post : list string),
      fst (scanFile f) = (pre ++ line :: post)%list /\
      Forall accepted pre /\
      scanLine NFSdRPCStats.zero line = Err e) \/
  (exists se, snd (scanFile f) = Some se /\ e = CouldntParseFile (Name f) se).
Proof.
  unfold NewNFSdRPCStats.
  destruct (scanFile f) as [lines serr]; simpl.
  destruct (scanLoop NFSdRPCStats.zero lines) as [stats |] eqn:E.
  - destruct serr as [se |]; [| discriminate].
    intro H; injection H as <-; right; exists se; auto.
  - intro H; injection H as ->; left; apply scanLoop_Err; exact E.
Qed.

(** Apart from "net", a key of the catalog is never reported as unknown. *)
Lemma dispatch_catalog_key (stats : NFSdRPCStats.t) (line key v : string)
      (vs : list string) (k : string) :
  strings.Fields line = key :: v :: vs ->
  In key spec_catalog ->
  key <> "net" ->
  scanLine stats line <> Err (InvalidMetricKey k).
Proof.
  intros E Hin Hnet.
  assert (Hc : key = "rc" \/ In key emptyCases).
  { unfold spec_catalog, emptyCases in *; simpl in *.
    intuition congruence. }
  destruct Hc as [-> | Hc].
  - rewrite (scanLine_rc _ _ _ _ E).
    destruct (parseNFSdReplyCache (v :: vs)); discriminate.
  - rewrite (scanLine_empty_case _ _ _ _ _ E Hc); discriminate.
Qed.

(** A key outside the catalog, on a line of two tokens or more, is
    reported as unknown. *)
Lemma dispatch_unknown_key (stats : NFSdRPCStats.t) (line key v : string)
      (vs : list string) :
  strings.Fields line = key :: v :: vs ->
  ~ In key spec_catalog ->
  scanLine stats line = Err (InvalidMetricKey key).
Proof.
  intros E Hout; apply (scanLine_default _ _ _ _ _ E).
  - intros ->; apply Hout; simpl; auto.
  - intro Hin; apply Hout.
    unfold spec_catalog, emptyCases in *; simpl in *; intuition.
Qed.

(** * The properties of the specification, one by one *)

(** C1 (defect of the code).  On well-formed input every counter of the
    result should equal the token read.  The input "rc 8352 2 0" is well
    formed and its decoder returns Hits = 8352, Misses = 2, NoCache = 0, but
    the parse returns the zero aggregate: the decoded record is bound to a
    local variable and never stored, so Hits is 0 in the result. *)
Theorem C1_rc_counters_not_stored :
  parseNFSdReplyCache (tl (strings.Fields "rc 8352 2 0")) =
    Ok {| NFSdReplyCache.Hits := 8352; NFSdReplyCache.Misses := 2;
          NFSdReplyCache.NoCache := 0 |} /\
  parse (text ["rc 8352 2 0"]) = Ok NFSdRPCStats.zero /\
  NFSdReplyCache.Hits (NFSdRPCStats.NFSdReplyCache NFSdRPCStats.zero)
    <> 8352.
Proof.
  repeat split; try (vm_compute; reflexivity).
  vm_compute; discriminate.
Qed.

(** C2.  Whenever the parse succeeds, the aggregate it returns is the zero
    value of the struct: no branch of the loop assigns to it. *)
Theorem C2_success_returns_zero_aggregate (o : Opened)
        (stats : NFSdRPCStats.t) :
  NewNFSdRPCStats o = Ok stats -> stats = NFSdRPCStats.zero.
Proof.
  destruct o as [e | f]; simpl; [discriminate |].
  destruct (scanFile f) as [lines serr].
  destruct (scanLoop NFSdRPCStats.zero lines) as [s |] eqn:E; [| discriminate].
  apply scanLoop_stats in E; subst s.
  destruct serr; [discriminate | congruence].
Qed.

(** A file of three lines on which the parse succeeds. *)
Lemma C2_witness :
  parse (text ["rc 8352 2 0"; "fh 0 1 2 3 4"; "proc4ops 2 1 2"]) =
    Ok NFSdRPCStats.zero /\
  NFSdRPCStats.zero = NFSdRPCStats.zero.
Proof.
  split; [vm_compute; reflexivity |].
  apply (C2_success_returns_zero_aggregate
           (OpenOk {| Name := "/proc/net/rpc/nfsd";
                      contents := text ["rc 8352 2 0"; "fh 0 1 2 3 4";
                                        "proc4ops 2 1 2"];
                      readErr := None |})).
  vm_compute; reflexivity.
Defined.

(** C3 (defect of the code).  The key "net" belongs to the catalog, and the
    source declares the record of the net line, but the [switch] has no
    case for it: the line "net 1 2 3 4" reaches the default branch and the
    parse fails with the error of an unknown record type, citing "net". *)
Theorem C3_net_line_rejected :
  In "net" spec_catalog /\
  strings.Fields "net 1 2 3 4" = ["net"; "1"; "2"; "3"; "4"] /\
  parse (text ["net 1 2 3 4"]) = Err (InvalidMetricKey "net") /\
  spec_kind (InvalidMetricKey "net") = UnknownRecordType.
Proof.
  repeat split; try (vm_compute; reflexivity).
  simpl; tauto.
Qed.

(** C4 (defect of the code).  A proc4ops line should be decoded and its
    number of counters checked against the leading count.  The case of
    "proc4ops" is empty: the lines "proc4ops 2 1 2", "proc4ops 2 1" and
    "proc4ops 2 1 2 3" are all accepted and leave the aggregate at its zero
    value, [Values] included. *)
Theorem C4_proc4ops_not_decoded :
  parse (text ["proc4ops 2 1 2"]) = Ok NFSdRPCStats.zero /\
  parse (text ["proc4ops 2 1"]) = Ok NFSdRPCStats.zero /\
  parse (text ["proc4ops 2 1 2 3"]) = Ok NFSdRPCStats.zero /\
  NFSdv4Ops.Values (NFSdRPCStats.NFSdv4Ops NFSdRPCStats.zero) = 0.
Proof.
  repeat split; vm_compute; reflexivity.
Qed.

(** An rc line without a value token is stopped by the test on the number
    of tokens of the line, before the decoder is called: the error is the
    one of a malformed line and not the one of a wrong arity. *)
Lemma C5_bare_rc_line_is_malformed :
  List.length (tl (strings.Fields "rc")) <> 3%nat /\
  parse (text ["rc"]) = Err (InvalidMetricLine "rc") /\
  spec_kind (InvalidMetricLine "rc") <> ArityMismatch.
Proof.
  repeat split; try (vm_compute; reflexivity); vm_compute; discriminate.
Qed.

(** C5 (amended).  The first line of the file that is not accepted being an
    rc line with at least one value token, if the number of its value
    tokens is not 3 the parse returns no aggregate: it fails with the error
    of the length test of the decoder, wrapped by the dispatcher, whose
    kind is ArityMismatch. *)
Theorem C5_rc_arity_mismatch (f : File) (pre post : list string)
        (line v : string) (vs : list string) :
  fst (scanFile f) = (pre ++ line :: post)%list ->
  Forall accepted pre ->
  strings.Fields line = "rc" :: v :: vs ->
  List.length (v :: vs) <> 3%nat ->
  NewNFSdRPCStats (OpenOk f) =
    Err (ErrorParsingReplyCache (InvalidReplyCacheLine (v :: vs))) /\
  spec_kind (ErrorParsingReplyCache (InvalidReplyCacheLine (v :: vs))) =
    ArityMismatch.
Proof.
  intros Hf Hpre Hline Hlen; split; [| reflexivity].
  apply (NewNFSdRPCStats_first_error f pre post line _ Hf Hpre).
  rewrite (scanLine_rc _ _ _ _ Hline), (parseNFSdReplyCache_arity _ Hlen).
  reflexivity.
Qed.

(** An rc line with two value tokens, after a line that is accepted. *)
Lemma C5_witness :
  parse (text ["fh 0 1 2 3 4"; "rc 8352 2"; "io 1 2"]) =
    Err (ErrorParsingReplyCache (InvalidReplyCacheLine ["8352"; "2"])) /\
  spec_kind (ErrorParsingReplyCache (InvalidReplyCacheLine ["8352"; "2"])) =
    ArityMismatch.
Proof.
  apply (C5_rc_arity_mismatch
           {| Name := "/proc/net/rpc/nfsd";
              contents := text ["fh 0 1 2 3 4"; "rc 8352 2"; "io 1 2"];
              readErr := None |}
           ["fh 0 1 2 3 4"] ["io 1 2"] "rc 8352 2" "8352" ["2"]).
  - vm_compute; reflexivity.
  - repeat constructor.
  - vm_compute; reflexivity.
  - simpl; lia.
Defined.

(** C6 (defect of the code).  An ra line should carry exactly 12 value
    tokens and fill the read-ahead record.  The case of "ra" is empty: the
    line "ra 256 10 20 30 0 0 0 0 0 0 5 40" leaves CacheSize, the histogram
    and NotFound at zero, and the line "ra 256", with a single value token,
    is accepted. *)
Theorem C6_ra_not_decoded :
  List.length (tl (strings.Fields "ra 256 10 20 30 0 0 0 0 0 0 5 40"))
    = 12%nat /\
  parse (text ["ra 256 10 20 30 0 0 0 0 0 0 5 40"]) = Ok NFSdRPCStats.zero /\
  NFSdRPCStats.NFSdReadAheadCache NFSdRPCStats.zero =
    {| NFSdReadAheadCache.CacheSize := 0;
       NFSdReadAheadCache.CacheHistogram := [0; 0; 0; 0; 0; 0; 0; 0; 0; 0];
       NFSdReadAheadCache.NotFound := 0 |} /\
  parse (text ["ra 256"]) = Ok NFSdRPCStats.zero.
Proof.
  repeat split; vm_compute; reflexivity.
Qed.

(** C7 (defect of the code).  A token that is not a base-10 unsigned
    integer should make the parse fail.  Numbers are read on rc lines only,
    and there as signed integers: the line "fh 12a 0 0 0 0" is accepted, and
    so is "rc -5 0 0", although "-5" is no unsigned integer.  On an rc line
    "12a" is refused, with an error that names the field and the token. *)
Theorem C7_invalid_number_accepted :
  parse (text ["fh 12a 0 0 0 0"]) = Ok NFSdRPCStats.zero /\
  snd (strconv.ParseUint "-5") = Some strconv.ErrSyntax /\
  parse (text ["rc -5 0 0"]) = Ok NFSdRPCStats.zero /\
  parse (text ["rc 12a 0 0"]) =
    Err (ErrorParsingReplyCache (CouldntParseHits "12a")).
Proof.
  repeat split; vm_compute; reflexivity.
Qed.

(** An empty line makes the parse fail. *)
Lemma C8_empty_line_fails :
  strings.Fields "" = [] /\
  fst (scanFile {| Name := "/proc/net/rpc/nfsd";
                   contents := text ["rc 8352 2 0"; ""];
                   readErr := None |}) = ["rc 8352 2 0"; ""] /\
  parse (text ["rc 8352 2 0"; ""]) = Err (InvalidMetricLine "") /\
  spec_kind (InvalidMetricLine "") = MalformedLine.
Proof.
  repeat split; vm_compute; reflexivity.
Qed.

(** C8 (amended).  The parse of a file fails with the error of a malformed
    line exactly when the first line that is not accepted, empty or not,
    splits into fewer than 2 tokens.  An empty line has no token, and is
    such a line. *)
Theorem C8_malformed_line_iff (f : File) :
  ((exists e, NewNFSdRPCStats (OpenOk f) = Err e /\
              spec_kind e = MalformedLine) <->
   (exists (pre : list string) (line : string) (post : list string),
       fst (scanFile f) = (pre ++ line :: post)%list /\
       Forall accepted pre /\
       (List.length (strings.Fields line) < 2)%nat)) /\
  strings.Fields "" = [] /\
  (forall stats, scanLine stats "" = Err (InvalidMetricLine "")).
Proof.
  split; [split |].
  - intros (e & He & Hk).
    apply NewNFSdRPCStats_Err in He.
    destruct He as [(pre & line & post & Hf & Hpre & Hline) | (se & _ & ->)];
      [| discriminate Hk].
    exists pre, line, post; repeat split; auto.
    destruct (scanLine_cases line)
      as [Hs | (key & v & vs & E & [-> | [Hin | [Hrc Hout]]])]; [exact Hs | | |];
      exfalso.
    + rewrite (scanLine_rc _ _ _ _ E) in Hline.
      destruct (parseNFSdReplyCache (v :: vs)) as [rc | e'] eqn:P;
        [discriminate |].
      injection Hline as <-; simpl in Hk.
      destruct (parseNFSdReplyCache_Err_kind _ _ P); congruence.
    + rewrite (scanLine_empty_case _ _ _ _ _ E Hin) in Hline; discriminate.
    + rewrite (scanLine_default _ _ _ _ _ E Hrc Hout) in Hline.
      injection Hline as <-; discriminate Hk.
  - intros (pre & line & post & Hf & Hpre & Hs).
    exists (InvalidMetricLine line); split; [| reflexivity].
    apply (NewNFSdRPCStats_first_error f pre post line _ Hf Hpre).
    apply scanLine_too_short; exact Hs.
  - split; [reflexivity | intro stats; reflexivity].
Qed.

(** C9.  The line "rc 8352 2 0" decodes to the reply-cache record with
    Hits = 8352, Misses = 2 and NoCache = 0; in general the three value
    tokens go to Hits, Misses and NoCache in this order, each field holding
    the number read from its own token. *)
Theorem C9_rc_decodes_in_order :
  parseNFSdReplyCache (tl (strings.Fields "rc 8352 2 0")) =
    Ok {| NFSdReplyCache.Hits := 8352; NFSdReplyCache.Misses := 2;
          NFSdReplyCache.NoCache := 0 |} /\
  (forall (l0 l1 l2 : string) (hits misses nocache : Z),
      strconv.ParseInt l0 = (hits, None) ->
      strconv.ParseInt l1 = (misses, None) ->
      strconv.ParseInt l2 = (nocache, None) ->
      parseNFSdReplyCache [l0; l1; l2] =
        Ok {| NFSdReplyCache.Hits := uint64 hits;
              NFSdReplyCache.Misses := uint64 misses;
              NFSdReplyCache.NoCache := uint64 nocache |}).
Proof.
  split; [vm_compute; reflexivity |].
  intros l0 l1 l2 hits misses nocache H0 H1 H2.
  unfold parseNFSdReplyCache; rewrite H0, H1, H2; reflexivity.
Qed.








(** * Further properties of the code *)

(** ** The tokens that the decoder takes *)

Lemma digits_ErrRange (s : string) (n v : Z) :
  strconv.digits n s = (v, Some strconv.ErrRange) -> v = maxUint64.
Proof.
  revert n; induction s as [| c s IH]; simpl; intros n H; [discriminate |].
  destruct (strconv.isDigit c); [| discriminate].
  destruct (strconv.cutoff <=? n); [congruence |].
  match type of H with
  | (if ?b then _ else _) = _ => destruct b; [congruence | eauto]
  end.
Qed.

Lemma digits_None (s : string) (n v : Z) :
  0 <= n < two64 ->
  strconv.digits n s = (v, None) ->
  allDigits s = true /\ n <= v < two64.
Proof.
  revert n; induction s as [| c s IH]; simpl; intros n Hn H.
  - injection H as <-; split; [reflexivity | lia].
  - destruct (strconv.isDigit c); [| discriminate].
    destruct (strconv.cutoff <=? n); [discriminate |].
    destruct (Z.ltb_spec ((n * 10 + (strconv.byte c - 48)) mod two64) (n * 10))
      as [| Hge]; [discriminate |].
    simpl in H.
    destruct (maxUint64 <? _); [discriminate |].
    assert (Hr : 0 <= (n * 10 + (strconv.byte c - 48)) mod two64 < two64)
      by (apply Z.mod_pos_bound; reflexivity).
    destruct (IH _ Hr H) as [Hd Hv]; split; [exact Hd | lia].
Qed.

(** What [strconv.ParseInt] takes is a string of decimal digits, at least
    one, after at most one sign, whose value fits 64 bits with sign. *)
Lemma ParseInt_None (s : string) (v : Z) :
  strconv.ParseInt s = (v, None) ->
  unsigned s <> EmptyString /\ allDigits (unsigned s) = true /\
  - 2 ^ 63 <= v < 2 ^ 63.
Proof.
  destruct s as [| c0 s1]; [discriminate |].
  unfold strconv.ParseInt, unsigned.
  set (s' := if Ascii.eqb c0 "+" then s1
             else if Ascii.eqb c0 "-" then s1 else String c0 s1).
  destruct (strconv.ParseUint s') as [un err] eqn:E.
  destruct (string_dec s' EmptyString) as [Hs | Hs].
  { rewrite Hs in E; simpl in E; injection E as <- <-; discriminate. }
  assert (D : strconv.digits 0 s' = (un, err))
    by (destruct s'; [contradiction | exact E]).
  destruct err as [[|] |]; [discriminate | |].
  - apply digits_ErrRange in D; subst un.
    assert (L1 : (2 ^ 63 <? maxUint64) = true) by reflexivity.
    assert (L2 : (2 ^ 63 <=? maxUint64) = true) by reflexivity.
    destruct (Ascii.eqb c0 "-"); cbn [andb negb]; rewrite ?L1, ?L2;
      discriminate.
  - apply digits_None in D; [| split; reflexivity].
    destruct D as [Hd Hun]; unfold two64 in Hun.
    destruct (Ascii.eqb c0 "-"); cbn [andb negb];
      [destruct (Z.ltb_spec (2 ^ 63) un) as [Hc | Hc]
      | destruct (Z.leb_spec (2 ^ 63) un) as [Hc | Hc]];
      intro H; try discriminate H; injection H as <-;
      (split; [exact Hs | split; [exact Hd | lia]]).
Qed.

(** ** The decimal writing of a counter, read back *)

Lemma uval_ge (d : Decimal.uint) (acc : Z) : 0 <= acc -> acc <= uval acc d.
Proof.
  revert acc; induction d as [| d IH | d IH | d IH | d IH | d IH | d IH
                               | d IH | d IH | d IH | d IH];
    intros acc H; cbn [uval]; [lia | ..];
    (etransitivity; [| apply IH]); lia.
Qed.

Lemma uval_of_uint_acc (d : Decimal.uint) (p : positive) :
  Zpos (Pos.of_uint_acc d p) = uval (Zpos p) d.
Proof.
  revert p; induction d as [| d IH | d IH | d IH | d IH | d IH | d IH
                             | d IH | d IH | d IH | d IH];
    intro p; cbn [uval Pos.of_uint_acc]; [reflexivity | ..];
    rewrite IH; f_equal; lia.
Qed.

Lemma uval_of_uint (d : Decimal.uint) : uval 0 d = Z.of_N (N.of_uint d).
Proof.
  unfold N.of_uint.
  induction d as [| d IH | d IH | d IH | d IH | d IH | d IH
                   | d IH | d IH | d IH | d IH];
    cbn [uval Pos.of_uint Z.of_N]; [reflexivity | exact IH | ..];
    rewrite uval_of_uint_acc; reflexivity.
Qed.

Lemma uval_to_uint (n : N) : uval 0 (N.to_uint n) = Z.of_N n.
Proof.
  rewrite uval_of_uint, DecimalN.Unsigned.of_to; reflexivity.
Qed.

Lemma cutoff_value : strconv.cutoff = 1844674407370955162.
Proof. reflexivity. Qed.

Lemma two64_value : two64 = 18446744073709551616.
Proof. reflexivity. Qed.

(** One turn of the digit loop on a decimal digit. *)
Lemma digits_step (c : ascii) (k acc : Z) (s : string) :
  strconv.isDigit c = true ->
  strconv.byte c - 48 = k ->
  0 <= k <= 9 ->
  0 <= acc < two64 ->
  strconv.digits acc (String c s) =
    if 10 * acc + k <? two64 then strconv.digits (10 * acc + k) s
    else (maxUint64, Some strconv.ErrRange).
Proof.
  intros Hc Hk Hk9 Hacc; cbn [strconv.digits]; rewrite Hc, Hk; cbv zeta.
  rewrite cutoff_value; unfold maxUint64; rewrite two64_value in *.
  destruct (Z.leb_spec 1844674407370955162 acc) as [H1 | H1].
  - destruct (Z.ltb_spec (10 * acc + k) 18446744073709551616);
      [lia | reflexivity].
  - destruct (Z.ltb_spec (10 * acc + k) 18446744073709551616) as [H2 | H2].
    + rewrite Z.mod_small by lia.
      destruct (Z.ltb_spec (acc * 10 + k) (acc * 10)); [lia |].
      destruct (Z.ltb_spec (18446744073709551616 - 1) (acc * 10 + k));
        [lia |].
      cbn [orb]; f_equal; lia.
    + replace ((acc * 10 + k) mod 18446744073709551616)
        with (acc * 10 + k - 18446744073709551616).
      * destruct (Z.ltb_spec (acc * 10 + k - 18446744073709551616) (acc * 10));
          [reflexivity | lia].
      * apply Z.mod_unique with (q := 1); lia.
Qed.

(** The digit loop on a sequence of decimal digits: their value, unless
    it overflows 64 bits. *)
Lemma digits_string_of_uint (d : Decimal.uint) (acc : Z) :
  0 <= acc < two64 ->
  strconv.digits acc (DecimalString.NilEmpty.string_of_uint d) =
    if uval acc d <? two64 then (uval acc d, None)
    else (maxUint64, Some strconv.ErrRange).
Proof.
  revert acc; induction d as [| d IH | d IH | d IH | d IH | d IH | d IH
                               | d IH | d IH | d IH | d IH];
    intros acc Hacc;
    cbn [DecimalString.NilEmpty.string_of_uint uval].
  1: cbn [strconv.digits]; destruct (Z.ltb_spec acc two64);
       [reflexivity | lia].
  all: match goal with
       | |- strconv.digits ?a0 (String ?c _) = _ =>
           let k := eval vm_compute in (strconv.byte c - 48) in
           rewrite (digits_step c k) by (reflexivity || lia || assumption)
       end;
    rewrite ?Z.add_0_r;
    match goal with
    | |- (if ?a <? two64 then _ else _) =
         (if uval _ ?d0 <? _ then _ else _) =>
        destruct (Z.ltb_spec a two64) as [Hs | Hs];
        [ apply IH; lia
        | pose proof (uval_ge d0 a) as Hge;
          destruct (Z.ltb_spec (uval a d0) two64); [lia | reflexivity] ]
    end.
Qed.

Lemma decimal_first_digit (n : Z) :
  exists c s, decimal n = String c s /\ strconv.isDigit c = true.
Proof.
  unfold decimal.
  destruct (N.to_uint (Z.to_N n)) as [| d | d | d | d | d | d | d | d | d | d]
    eqn:E; cbn [DecimalString.NilEmpty.string_of_uint];
    try (eexists; eexists; split; reflexivity).
  exfalso.
  pose proof (DecimalN.Unsigned.of_to (Z.to_N n)) as H.
  rewrite E in H; cbn in H; rewrite <- H in E; discriminate E.
Qed.

(** [strconv.ParseInt] on the decimal writing of a counter: the counter
    below [2 ^ 63], a range error from [2 ^ 63] on. *)
Lemma ParseInt_decimal (n : Z) :
  0 <= n ->
  strconv.ParseInt (decimal n) =
    if n <? 2 ^ 63 then (n, None) else (2 ^ 63 - 1, Some strconv.ErrRange).
Proof.
  intro Hn.
  destruct (decimal_first_digit n) as (c & s & E & Hc).
  assert (D : strconv.digits 0 (decimal n) =
              if n <? two64 then (n, None)
              else (maxUint64, Some strconv.ErrRange)).
  { unfold decimal; rewrite digits_string_of_uint by (split; reflexivity).
    rewrite uval_to_uint, Z2N.id by exact Hn; reflexivity. }
  rewrite E in *.
  unfold strconv.ParseInt, strconv.ParseUint.
  destruct (Ascii.eqb_spec c "+") as [-> | _]; [discriminate Hc |].
  destruct (Ascii.eqb_spec c "-") as [-> | _]; [discriminate Hc |].
  rewrite D; cbn [negb andb].
  assert (L : (2 ^ 63 <=? maxUint64) = true) by reflexivity.
  rewrite two64_value.
  destruct (Z.ltb_spec n 18446744073709551616) as [H64 | H64];
    destruct (Z.ltb_spec n (2 ^ 63)) as [H63 | H63];
    cbv iota beta; rewrite ?L; try reflexivity; try lia.
  - destruct (Z.leb_spec (2 ^ 63) n); [lia | reflexivity].
  - destruct (Z.leb_spec (2 ^ 63) n); [reflexivity | lia].
Qed.

(** X1.  When the decoder of the rc line succeeds, the line has exactly
    three tokens, each token is a string of decimal digits, at least one,
    after at most one sign, and each field of the record is a 64-bit
    unsigned value. *)
Theorem X1_decoder_takes_signed_decimals (line : list string)
        (r : NFSdReplyCache.t) :
  parseNFSdReplyCache line = Ok r ->
  List.length line = 3%nat /\
  Forall (fun l => unsigned l <> EmptyString /\
                   allDigits (unsigned l) = true) line /\
  0 <= NFSdReplyCache.Hits r < two64 /\
  0 <= NFSdReplyCache.Misses r < two64 /\
  0 <= NFSdReplyCache.NoCache r < two64.
Proof.
  destruct line as [| l0 [| l1 [| l2 [| l3 ls]]]]; try discriminate.
  unfold parseNFSdReplyCache.
  destruct (strconv.ParseInt l0) as [h [e0 |]] eqn:E0; [discriminate |].
  destruct (strconv.ParseInt l1) as [m [e1 |]] eqn:E1; [discriminate |].
  destruct (strconv.ParseInt l2) as [n [e2 |]] eqn:E2; [discriminate |].
  intro H; injection H as <-; cbn [NFSdReplyCache.Hits NFSdReplyCache.Misses
                                    NFSdReplyCache.NoCache].
  apply ParseInt_None in E0, E1, E2.
  split; [reflexivity |].
  split; [repeat constructor; tauto |].
  unfold uint64; repeat split; apply Z.mod_pos_bound; reflexivity.
Qed.

(** The tokens "+7", "-1" and "0042" are taken. *)
Lemma X1_witness :
  parseNFSdReplyCache ["+7"; "-1"; "0042"] =
    Ok {| NFSdReplyCache.Hits := 7;
          NFSdReplyCache.Misses := 18446744073709551615;
          NFSdReplyCache.NoCache := 42 |} /\
  List.length ["+7"; "-1"; "0042"] = 3%nat /\
  Forall (fun l => unsigned l <> EmptyString /\
                   allDigits (unsigned l) = true) ["+7"; "-1"; "0042"] /\
  0 <= 7 < two64 /\ 0 <= 18446744073709551615 < two64 /\ 0 <= 42 < two64.
Proof.
  split; [vm_compute; reflexivity |].
  apply (X1_decoder_takes_signed_decimals
           ["+7"; "-1"; "0042"]
           {| NFSdReplyCache.Hits := 7;
              NFSdReplyCache.Misses := 18446744073709551615;
              NFSdReplyCache.NoCache := 42 |}).
  vm_compute; reflexivity.
Defined.

(** X2.  Three counters below [2 ^ 63], written in decimal, are read back
    by the decoder of the rc line: Hits, Misses and NoCache hold the three
    counters, in this order. *)
Theorem X2_decimal_round_trip (hits misses nocache : Z) :
  0 <= hits < 2 ^ 63 ->
  0 <= misses < 2 ^ 63 ->
  0 <= nocache < 2 ^ 63 ->
  parseNFSdReplyCache [decimal hits; decimal misses; decimal nocache] =
    Ok {| NFSdReplyCache.Hits := hits; NFSdReplyCache.Misses := misses;
          NFSdReplyCache.NoCache := nocache |}.
Proof.
  intros Hh Hm Hn; unfold parseNFSdReplyCache.
  rewrite !ParseInt_decimal by lia.
  destruct (Z.ltb_spec hits (2 ^ 63)); [| lia].
  destruct (Z.ltb_spec misses (2 ^ 63)); [| lia].
  destruct (Z.ltb_spec nocache (2 ^ 63)); [| lia].
  unfold uint64; rewrite two64_value.
  rewrite !Z.mod_small by lia; reflexivity.
Qed.

(** The largest counters that are read back. *)
Lemma X2_witness :
  0 <= 9223372036854775807 < 2 ^ 63 /\
  0 <= 0 < 2 ^ 63 /\
  0 <= 8352 < 2 ^ 63 /\
  parseNFSdReplyCache [decimal 9223372036854775807; decimal 0; decimal 8352] =
    Ok {| NFSdReplyCache.Hits := 9223372036854775807;
          NFSdReplyCache.Misses := 0; NFSdReplyCache.NoCache := 8352 |}.
Proof.
  assert (H1 : 0 <= 9223372036854775807 < 2 ^ 63) by lia.
  assert (H2 : 0 <= 0 < 2 ^ 63) by lia.
  assert (H3 : 0 <= 8352 < 2 ^ 63) by lia.
  split; [exact H1 | split; [exact H2 | split; [exact H3 |]]].
  exact (X2_decimal_round_trip _ _ _ H1 H2 H3).
Defined.

(** X3.  A counter from [2 ^ 63] on, although it may fit the 64-bit
    unsigned field, is refused: the decoder converts with the signed
    [strconv.ParseInt], and fails with an error on a number. *)
Theorem X3_counter_from_2_63_refused (hits misses nocache : Z) :
  0 <= hits -> 0 <= misses -> 0 <= nocache ->
  2 ^ 63 <= hits \/ 2 ^ 63 <= misses \/ 2 ^ 63 <= nocache ->
  exists e,
    parseNFSdReplyCache [decimal hits; decimal misses; decimal nocache] =
      Err e /\
    spec_kind e = InvalidNumber.
Proof.
  intros Hh Hm Hn Hbig; unfold parseNFSdReplyCache.
  rewrite !ParseInt_decimal by lia.
  destruct (Z.ltb_spec hits (2 ^ 63));
    [| eexists; split; reflexivity].
  destruct (Z.ltb_spec misses (2 ^ 63));
    [| eexists; split; reflexivity].
  destruct (Z.ltb_spec nocache (2 ^ 63));
    [lia | eexists; split; reflexivity].
Qed.

(** The counter [2 ^ 63], in the place of Misses. *)
Lemma X3_witness :
  exists e,
    parseNFSdReplyCache [decimal 1; decimal 9223372036854775808; decimal 0] =
      Err e /\
    spec_kind e = InvalidNumber.
Proof.
  apply (X3_counter_from_2_63_refused 1 9223372036854775808 0); lia.
Defined.

(** ** Which files are taken, and what an error tells *)

Lemma scanLine_Ok_or_Err (stats : NFSdRPCStats.t) (line : string) :
  scanLine stats line = Ok stats \/ exists e, scanLine stats line = Err e.
Proof.
  destruct (scanLine stats line) as [s |] eqn:E; [left | right; eauto].
  apply scanLine_stats in E; subst s; reflexivity.
Qed.

Lemma accepted_wellFormedLine (line : string) :
  accepted line <-> wellFormedLine line.
Proof.
  unfold accepted, wellFormedLine; split.
  - intro H.
    destruct (scanLine_cases line)
      as [Hs | (key & v & vs & E & [-> | [Hin | [Hrc Hout]]])].
    + rewrite (scanLine_too_short _ _ Hs) in H; discriminate.
    + rewrite (scanLine_rc _ _ _ _ E) in H.
      destruct (parseNFSdReplyCache (v :: vs)) as [r |] eqn:P;
        [| discriminate].
      exists "rc", v, vs; split; [exact E | right; eauto].
    + exists key, v, vs; auto.
    + rewrite (scanLine_default _ _ _ _ _ E Hrc Hout) in H; discriminate.
  - intros (key & v & vs & E & [Hin | [-> [r P]]]).
    + apply (scanLine_empty_case _ _ _ _ _ E Hin).
    + rewrite (scanLine_rc _ _ _ _ E), P; reflexivity.
Qed.

Lemma Forall_accepted_wellFormed (lines : list string) :
  Forall accepted lines <-> Forall wellFormedLine lines.
Proof.
  rewrite !Forall_forall; split; intros H l Hl;
    apply accepted_wellFormedLine, H, Hl.
Qed.

Lemma scanLoop_Ok_accepted (lines : list string) (stats s : NFSdRPCStats.t) :
  scanLoop stats lines = Ok s -> Forall accepted lines.
Proof.
  revert stats; induction lines as [| l ls IH]; simpl; intros stats H;
    [constructor |].
  destruct (scanLine stats l) as [s' |] eqn:E; [| discriminate].
  pose proof (scanLine_stats _ _ _ E); subst s'.
  constructor; [| eapply IH; eassumption].
  unfold accepted.
  rewrite (scanLine_independent stats NFSdRPCStats.zero l), E; reflexivity.
Qed.

(** X5.  The parse succeeds exactly when the file opens, the scanner
    reports no error, and every line has at least two tokens and starts
    with one of the keys fh, io, th, ra, rpc, proc2, proc3, proc4, proc4ops,
    or with rc followed by three tokens that the decoder takes; the order
    of the lines and their repetition do not matter.  The result is then
    the zero aggregate. *)
Theorem X5_parse_succeeds_iff (o : Opened) (stats : NFSdRPCStats.t) :
  NewNFSdRPCStats o = Ok stats <->
  stats = NFSdRPCStats.zero /\
  exists f, o = OpenOk f /\
            Forall wellFormedLine (fst (scanFile f)) /\
            snd (scanFile f) = None.
Proof.
  split.
  - destruct o as [msg | f]; simpl; [discriminate |].
    destruct (scanFile f) as [lines serr] eqn:Ef; simpl.
    destruct (scanLoop NFSdRPCStats.zero lines) as [s |] eqn:E;
      [| discriminate].
    pose proof (scanLoop_Ok_accepted _ _ _ E) as Hall.
    apply scanLoop_stats in E; subst s.
    destruct serr; [discriminate |].
    intro H; injection H as <-; split; [reflexivity |].
    exists f; rewrite Ef, <- Forall_accepted_wellFormed; simpl; auto.
  - intros (-> & f & -> & Hall & Hs).
    apply NewNFSdRPCStats_Ok; [| exact Hs].
    apply Forall_accepted_wellFormed; exact Hall.
Qed.

(** X6.  The error of the scanner (a line that does not fit the buffer, a
    failure of the reader) is returned exactly when every line that the
    scanner did return passes the loop: the error of a line comes first.
    It carries the name of the file. *)
Theorem X6_scanner_error_comes_last (f : File) (name : string)
        (se : bufio.ScanError) :
  NewNFSdRPCStats (OpenOk f) = Err (CouldntParseFile name se) <->
  name = Name f /\
  Forall wellFormedLine (fst (scanFile f)) /\
  snd (scanFile f) = Some se.
Proof.
  rewrite <- Forall_accepted_wellFormed.
  unfold NewNFSdRPCStats.
  destruct (scanFile f) as [lines serr]; simpl; split.
  - destruct (scanLoop NFSdRPCStats.zero lines) as [s |] eqn:E.
    + pose proof (scanLoop_Ok_accepted _ _ _ E) as Hall.
      destruct serr as [se' |]; [| discriminate].
      intro H; injection H as <- <-; auto.
    + intro H; injection H as ->.
      apply scanLoop_Err in E.
      destruct E as (pre & line & post & _ & _ & Hline).
      exfalso.
      destruct (scanLine_cases line)
        as [Hs | (key & v & vs & E & [-> | [Hin | [Hrc Hout]]])].
      * rewrite (scanLine_too_short _ _ Hs) in Hline; discriminate.
      * rewrite (scanLine_rc _ _ _ _ E) in Hline.
        destruct (parseNFSdReplyCache (v :: vs)); discriminate.
      * rewrite (scanLine_empty_case _ _ _ _ _ E Hin) in Hline; discriminate.
      * rewrite (scanLine_default _ _ _ _ _ E Hrc Hout) in Hline;
          discriminate.
  - intros (-> & Hall & ->).
    rewrite (scanLoop_all_accepted _ _ Hall); reflexivity.
Qed.

Lemma scanLoop_stops (pre post : list string) (line : string)
      (stats : NFSdRPCStats.t) (e : error) :
  scanLine stats line = Err e ->
  scanLoop stats (pre ++ line :: post) = scanLoop stats (pre ++ [line]).
Proof.
  revert stats; induction pre as [| l pre IH]; simpl; intros stats H.
  - rewrite H; reflexivity.
  - destruct (scanLine stats l) as [s |] eqn:E; [| reflexivity].
    apply scanLine_stats in E; subst s; apply IH; exact H.
Qed.

Lemma scanLoop_rejected (pre : list string) (line : string)
      (stats : NFSdRPCStats.t) (e : error) :
  scanLine stats line = Err e ->
  exists e', scanLoop stats (pre ++ [line]) = Err e'.
Proof.
  revert stats; induction pre as [| l pre IH]; simpl; intros stats H.
  - rewrite H; eauto.
  - destruct (scanLine stats l) as [s |] eqn:E; [| eauto].
    apply scanLine_stats in E; subst s; apply IH; exact H.
Qed.

(** X7.  The parse stops at the first line that the loop rejects: two
    files whose lines agree up to and including a rejected line give the
    same error, whatever their names, the lines that follow, and the errors
    of their readers. *)
Theorem X7_first_error_wins (f1 f2 : File) (pre post1 post2 : list string)
        (line : string) :
  fst (scanFile f1) = (pre ++ line :: post1)%list ->
  fst (scanFile f2) = (pre ++ line :: post2)%list ->
  ~ wellFormedLine line ->
  NewNFSdRPCStats (OpenOk f1) = NewNFSdRPCStats (OpenOk f2) /\
  exists e, NewNFSdRPCStats (OpenOk f1) = Err e.
Proof.
  intros H1 H2 Hbad.
  assert (Hline : exists e, scanLine NFSdRPCStats.zero line = Err e).
  { destruct (scanLine_Ok_or_Err NFSdRPCStats.zero line) as [H | H];
      [| exact H].
    exfalso; apply Hbad, accepted_wellFormedLine; exact H. }
  destruct Hline as [e He].
  unfold NewNFSdRPCStats.
  destruct (scanFile f1) as [lines1 serr1];
    destruct (scanFile f2) as [lines2 serr2]; simpl in H1, H2; subst.
  rewrite (scanLoop_stops pre post1 line _ e He),
          (scanLoop_stops pre post2 line _ e He).
  destruct (scanLoop_rejected pre line _ e He) as [e' ->].
  split; [reflexivity | eauto].
Qed.

(** A line with the key "net", followed by different lines in a file that
    is read to its end and in a file whose reader fails. *)
Lemma X7_witness :
  let f1 := {| Name := "/proc/net/rpc/nfsd";
               contents := text ["io 1 2"; "net 1 2 3 4"; "th 8 0"];
               readErr := None |} in
  let f2 := {| Name := "/tmp/nfsd";
               contents := text ["io 1 2"; "net 1 2 3 4"; ""; "zz"];
               readErr := Some "input/output error" |} in
  NewNFSdRPCStats (OpenOk f1) = NewNFSdRPCStats (OpenOk f2) /\
  exists e, NewNFSdRPCStats (OpenOk f1) = Err e.
Proof.
  intros f1 f2.
  apply (X7_first_error_wins f1 f2 ["io 1 2"] ["th 8 0"] [""; "zz"]
                             "net 1 2 3 4").
  - vm_compute; reflexivity.
  - vm_compute; reflexivity.
  - intro H; apply accepted_wellFormedLine in H; vm_compute in H;
      discriminate H.
Defined.

(** X8.  What an error of the parse tells about the input.  The error of
    [os.Open] is returned as it is.  A malformed-line error cites a line of
    the file with fewer than two tokens; an unknown-key error cites the
    first token of a line of the file, a token that has no case in the
    [switch]; an error of the decoder of the rc line is always wrapped,
    once, and comes from the value tokens of an rc line of the file; the
    error of the scanner carries the name of the file.  The decoder's
    errors never reach the caller unwrapped. *)
Theorem X8_errors_cite_the_input (o : Opened) (e : error) :
  NewNFSdRPCStats o = Err e -> reported o e.
Proof.
  destruct o as [msg | f].
  - simpl; intro H; injection H as <-; reflexivity.
  - intro H; apply NewNFSdRPCStats_Err in H.
    destruct H as [(pre & line & post & Hf & _ & Hline) | (se & Hs & ->)].
    + assert (Hin : In line (fst (scanFile f)))
        by (rewrite Hf; apply in_or_app; right; left; reflexivity).
      destruct (scanLine_cases line)
        as [Hs | (key & v & vs & E & [-> | [Hk | [Hrc Hout]]])].
      * rewrite (scanLine_too_short _ _ Hs) in Hline; injection Hline as <-.
        exists f; auto.
      * rewrite (scanLine_rc _ _ _ _ E) in Hline.
        destruct (parseNFSdReplyCache (v :: vs)) as [r | e'] eqn:P;
          [discriminate |].
        injection Hline as <-.
        exists f, line, v, vs; repeat split; auto.
        eapply parseNFSdReplyCache_Err_kind; exact P.
      * rewrite (scanLine_empty_case _ _ _ _ _ E Hk) in Hline; discriminate.
      * rewrite (scanLine_default _ _ _ _ _ E Hrc Hout) in Hline.
        injection Hline as <-.
        exists f, line, v, vs; repeat split; auto.
    + exists f; auto.
Qed.

(** An rc line with a token that is no number, after a line that passes. *)
Lemma X8_witness :
  let o := OpenOk {| Name := "/proc/net/rpc/nfsd";
                     contents := text ["th 8 0"; "rc 1 2a 3"];
                     readErr := None |} in
  NewNFSdRPCStats o = Err (ErrorParsingReplyCache (CouldntParseMisses "2a"))
  /\ reported o (ErrorParsingReplyCache (CouldntParseMisses "2a")).
Proof.
  intro o.
  assert (H : NewNFSdRPCStats o =
              Err (ErrorParsingReplyCache (CouldntParseMisses "2a")))
    by (vm_compute; reflexivity).
  split; [exact H | exact (X8_errors_cite_the_input o _ H)].
Defined.

(** ** From the bytes of the file to its lines *)

Lemma string_app_assoc (a b c : string) :
  ((a ++ b) ++ c = a ++ (b ++ c))%string.
Proof. induction a as [| x a IH]; simpl; [reflexivity | rewrite IH; reflexivity]. Qed.

Lemma string_app_nil_r (a : string) : (a ++ EmptyString)%string = a.
Proof. induction a as [| x a IH]; simpl; [reflexivity | rewrite IH; reflexivity]. Qed.

Lemma list_ascii_of_string_app (a b : string) :
  list_ascii_of_string (a ++ b) =
    (list_ascii_of_string a ++ list_ascii_of_string b)%list.
Proof. induction a as [| x a IH]; simpl; [reflexivity | rewrite IH; reflexivity]. Qed.

Lemma noLF_app (a b : string) :
  noLF (a ++ b) = noLF a && noLF b.
Proof.
  induction a as [| x a IH]; simpl; [reflexivity |].
  rewrite IH, andb_assoc; reflexivity.
Qed.

Lemma length_app (a b : string) :
  String.length (a ++ b) = (String.length a + String.length b)%nat.
Proof. induction a as [| x a IH]; simpl; [reflexivity | rewrite IH; reflexivity]. Qed.

(** A line of the file, up to its line feed. *)
Lemma scan_line (l : string) (cur : list ascii) (n : N) (rest : string) :
  noLF l = true ->
  (n + N.of_nat (String.length l) < bufio.MaxScanTokenSize)%N ->
  bufio.scan cur n (l ++ String "010" rest) =
    (bufio.token (rev (list_ascii_of_string l) ++ cur)
       :: fst (bufio.scan [] 0%N rest),
     snd (bufio.scan [] 0%N rest)).
Proof.
  revert cur n; induction l as [| c l IH]; intros cur n Hlf Hlen.
  - simpl; destruct (bufio.scan [] 0%N rest); reflexivity.
  - cbn [noLF] in Hlf; apply andb_true_iff in Hlf; destruct Hlf as [Hc Hlf].
    cbn [String.append bufio.scan].
    destruct (Ascii.eqb c "010"); [discriminate Hc |].
    cbn [String.length] in Hlen; unfold bufio.MaxScanTokenSize in *.
    destruct (N.leb_spec 65536 (n + 1)) as [Hbig | _]; [lia |].
    rewrite IH by (assumption || lia).
    cbn [list_ascii_of_string rev]; rewrite <- app_assoc; reflexivity.
Qed.

(** The last line of the file, when no line feed ends it. *)
Lemma scan_last (l : string) (cur : list ascii) (n : N) :
  noLF l = true ->
  (n + N.of_nat (String.length l) < bufio.MaxScanTokenSize)%N ->
  bufio.scan cur n l =
    (match (rev (list_ascii_of_string l) ++ cur)%list with
     | [] => []
     | x => [bufio.token x]
     end, None).
Proof.
  revert cur n; induction l as [| c l IH]; intros cur n Hlf Hlen.
  - simpl; destruct cur; reflexivity.
  - cbn [noLF] in Hlf; apply andb_true_iff in Hlf; destruct Hlf as [Hc Hlf].
    cbn [bufio.scan].
    destruct (Ascii.eqb c "010"); [discriminate Hc |].
    cbn [String.length] in Hlen; unfold bufio.MaxScanTokenSize in *.
    destruct (N.leb_spec 65536 (n + 1)) as [Hbig | _]; [lia |].
    rewrite IH by (assumption || lia).
    cbn [list_ascii_of_string rev]; rewrite <- app_assoc; reflexivity.
Qed.

(** A line that does not fit the buffer. *)
Lemma scan_too_long (l : string) (cur : list ascii) (n : N) (rest : string) :
  noLF l = true ->
  (n < bufio.MaxScanTokenSize)%N ->
  (bufio.MaxScanTokenSize <= n + N.of_nat (String.length l))%N ->
  bufio.scan cur n (l ++ rest) = ([], Some bufio.ErrTooLong).
Proof.
  revert cur n; induction l as [| c l IH]; intros cur n Hlf Hn Hlen.
  - cbn [String.length] in Hlen; lia.
  - cbn [noLF] in Hlf; apply andb_true_iff in Hlf; destruct Hlf as [Hc Hlf].
    cbn [String.append bufio.scan].
    destruct (Ascii.eqb c "010"); [discriminate Hc |].
    cbn [String.length] in Hlen; unfold bufio.MaxScanTokenSize in *.
    destruct (N.leb_spec 65536 (n + 1)) as [Hbig | Hsmall]; [reflexivity |].
    apply IH; (assumption || lia).
Qed.

Lemma dropCR_rev (l : string) :
  endsWithCR l = false ->
  bufio.dropCR (rev (list_ascii_of_string l)) = rev (list_ascii_of_string l).
Proof.
  induction l as [| c l IH]; [reflexivity |].
  destruct l as [| c' l'].
  - simpl; intros ->; reflexivity.
  - intro H; specialize (IH H).
    change (list_ascii_of_string (String c (String c' l')))
      with (c :: list_ascii_of_string (String c' l')).
    cbn [rev].
    destruct (rev (list_ascii_of_string (String c' l'))) as [| h t] eqn:E.
    + exfalso; cbn [list_ascii_of_string rev] in E.
      destruct (rev (list_ascii_of_string l')); discriminate E.
    + cbn [bufio.dropCR app] in IH |- *.
      destruct (Ascii.eqb h "013"); [| reflexivity].
      exfalso; apply (f_equal (@List.length ascii)) in IH; simpl in IH; lia.
Qed.

Lemma token_rev (l : string) :
  endsWithCR l = false ->
  bufio.token (rev (list_ascii_of_string l)) = l.
Proof.
  intro H; unfold bufio.token.
  rewrite (dropCR_rev l H), rev_involutive.
  apply string_of_list_ascii_of_string.
Qed.

Lemma token_rev_CR (l : string) :
  bufio.token (rev (list_ascii_of_string (l ++ String "013" EmptyString))) = l.
Proof.
  unfold bufio.token.
  rewrite list_ascii_of_string_app, rev_app_distr; simpl.
  rewrite rev_involutive; apply string_of_list_ascii_of_string.
Qed.

Lemma plainLine_true (l : string) :
  plainLine l = true ->
  noLF l = true /\ endsWithCR l = false /\
  (N.of_nat (String.length l) < bufio.MaxScanTokenSize)%N.
Proof.
  unfold plainLine; intro H.
  apply andb_true_iff in H; destruct H as [H H3].
  apply andb_true_iff in H; destruct H as [H1 H2].
  apply negb_true_iff in H2; apply N.ltb_lt in H3; auto.
Qed.

(** The lines of [text ls], followed by more bytes. *)
Lemma scan_text_app (ls : list string) (tail : string) :
  Forall (fun l => plainLine l = true) ls ->
  bufio.scan [] 0%N (text ls ++ tail) =
    ((ls ++ fst (bufio.scan [] 0%N tail))%list,
     snd (bufio.scan [] 0%N tail)).
Proof.
  induction 1 as [| l ls Hl _ IH].
  - simpl; destruct (bufio.scan [] 0%N tail); reflexivity.
  - apply plainLine_true in Hl; destruct Hl as (H1 & H2 & H3).
    cbn [text]; unfold LF.
    rewrite string_app_assoc; cbn [String.append].
    rewrite scan_line by (assumption || lia).
    rewrite IH, app_nil_r, (token_rev l H2); reflexivity.
Qed.

Lemma scanFile_text_app (f : File) (ls : list string) (tail : string) :
  contents f = (text ls ++ tail)%string ->
  Forall (fun l => plainLine l = true) ls ->
  scanFile f =
    ((ls ++ fst (bufio.scan [] 0%N tail))%list,
     match snd (bufio.scan [] 0%N tail) with
     | Some e => Some e
     | None => option_map bufio.ReadError (readErr f)
     end).
Proof.
  intros Hc Hls; unfold scanFile.
  rewrite Hc, (scan_text_app ls tail Hls); reflexivity.
Qed.

(** X9.  A file made of lines that end with a line feed is read back line
    by line: when no line holds a line feed, ends with a carriage return or
    reaches 65536 bytes, the loop runs on exactly these lines, in their
    order, and the scanner reports the error of the reader, if any. *)
Theorem X9_lines_read_back (f : File) (ls : list string) :
  contents f = text ls ->
  Forall (fun l => plainLine l = true) ls ->
  scanFile f = (ls, option_map bufio.ReadError (readErr f)) /\
  NewNFSdRPCStats (OpenOk f) =
    match scanLoop NFSdRPCStats.zero ls with
    | Err e => Err e
    | Ok stats =>
        match readErr f with
        | Some msg => Err (CouldntParseFile (Name f) (bufio.ReadError msg))
        | None => Ok stats
        end
    end.
Proof.
  intros Hc Hls.
  assert (E : scanFile f = (ls, option_map bufio.ReadError (readErr f))).
  { rewrite (scanFile_text_app f ls EmptyString);
      [simpl; rewrite app_nil_r; reflexivity
      | rewrite string_app_nil_r; exact Hc | exact Hls]. }
  split; [exact E |].
  unfold NewNFSdRPCStats; rewrite E.
  destruct (scanLoop NFSdRPCStats.zero ls); [| reflexivity].
  destruct (readErr f); reflexivity.
Qed.

(** Three lines, the second with a key that has no case. *)
Lemma X9_witness :
  let ls := ["rc 8352 2 0"; "net 1 2 3 4"; "io 1 2"] in
  let f := {| Name := "/proc/net/rpc/nfsd"; contents := text ls;
              readErr := None |} in
  scanFile f = (ls, None) /\
  NewNFSdRPCStats (OpenOk f) =
    match scanLoop NFSdRPCStats.zero ls with
    | Err e => Err e
    | Ok stats => Ok stats
    end.
Proof.
  intros ls f.
  apply (X9_lines_read_back f ls); [reflexivity |].
  repeat constructor.
Defined.

(** X10.  A line of 65536 bytes or more stops the scanner: when the lines
    before it pass the loop, the parse fails with the scanner's error,
    too long a line, under the name of the file, whatever the long line
    holds and whatever follows it. *)
Theorem X10_line_too_long (f : File) (pre : list string)
        (long rest : string) :
  contents f = (text pre ++ long ++ rest)%string ->
  Forall (fun l => plainLine l = true) pre ->
  Forall wellFormedLine pre ->
  noLF long = true ->
  (bufio.MaxScanTokenSize <= N.of_nat (String.length long))%N ->
  NewNFSdRPCStats (OpenOk f) =
    Err (CouldntParseFile (Name f) bufio.ErrTooLong).
Proof.
  intros Hc Hplain Hwf Hlf Hlen.
  unfold NewNFSdRPCStats.
  rewrite (scanFile_text_app f pre (long ++ rest) Hc Hplain).
  rewrite (scan_too_long long [] 0%N rest Hlf) by
    (unfold bufio.MaxScanTokenSize in *; lia).
  cbn [fst snd]; rewrite app_nil_r.
  apply Forall_accepted_wellFormed in Hwf.
  rewrite (scanLoop_all_accepted _ _ Hwf); reflexivity.
Qed.

(** A line of 65536 digits after the line "rc 1 2 3". *)
Lemma X10_witness :
  let long := replicate (N.to_nat 65536) "0" in
  let f := {| Name := "/proc/net/rpc/nfsd";
              contents := text ["rc 1 2 3"] ++ long ++ LF ++ "io 1 2";
              readErr := None |} in
  NewNFSdRPCStats (OpenOk f) =
    Err (CouldntParseFile "/proc/net/rpc/nfsd" bufio.ErrTooLong).
Proof.
  intros long f.
  apply (X10_line_too_long f ["rc 1 2 3"] long (LF ++ "io 1 2")).
  - reflexivity.
  - repeat constructor.
  - repeat constructor.
    apply accepted_wellFormedLine; vm_compute; reflexivity.
  - vm_compute; reflexivity.
  - vm_compute; discriminate.
Defined.

(** X11.  Lines that end with a carriage return and a line feed are read
    back without them: the scanner drops the line feed and one carriage
    return before it, and the loop runs on the lines as they were written
    before the two bytes. *)
Theorem X11_crlf_lines_read_back (f : File) (ls : list string) :
  contents f = textCRLF ls ->
  Forall (fun l => noLF l = true /\
                   (N.of_nat (String.length l) + 1
                    < bufio.MaxScanTokenSize)%N) ls ->
  scanFile f = (ls, option_map bufio.ReadError (readErr f)).
Proof.
  intros Hc Hls; unfold scanFile; rewrite Hc; clear Hc.
  assert (E : bufio.scan [] 0%N (textCRLF ls) = (ls, None)).
  { induction Hls as [| l ls [H1 H2] _ IH]; [reflexivity |].
    cbn [textCRLF]; unfold CRLF, LF.
    change (l ++ String "013" (String "010" EmptyString) ++ textCRLF ls)%string
      with (l ++ String "013" (String "010" (textCRLF ls)))%string.
    change (String "013" (String "010" (textCRLF ls)))
      with (String "013" EmptyString ++ String "010" (textCRLF ls))%string.
    rewrite <- string_app_assoc.
    rewrite scan_line.
    - rewrite IH, app_nil_r, token_rev_CR; reflexivity.
    - rewrite noLF_app, H1; reflexivity.
    - rewrite length_app; cbn [String.length]; lia. }
  rewrite E; reflexivity.
Qed.

(** The lines of a file written with carriage returns. *)
Lemma X11_witness :
  let ls := ["rc 8352 2 0"; ""; "io 1 2"] in
  scanFile {| Name := "/proc/net/rpc/nfsd"; contents := textCRLF ls;
              readErr := None |} = (ls, None).
Proof.
  intro ls.
  apply (X11_crlf_lines_read_back
           {| Name := "/proc/net/rpc/nfsd"; contents := textCRLF ls;
              readErr := None |} ls); [reflexivity |].
  repeat constructor; vm_compute; reflexivity.
Defined.

(** X12.  The last line needs no line feed: a file that ends with a line
    that is not empty and has no line feed after it gives the loop this
    line as its last line. *)
Theorem X12_last_line_without_line_feed (f : File) (ls : list string)
        (last : string) :
  contents f = (text ls ++ last)%string ->
  Forall (fun l => plainLine l = true) ls ->
  plainLine last = true ->
  last <> EmptyString ->
  scanFile f =
    ((ls ++ [last])%list, option_map bufio.ReadError (readErr f)).
Proof.
  intros Hc Hls Hlast Hne.
  apply plainLine_true in Hlast; destruct Hlast as (H1 & H2 & H3).
  rewrite (scanFile_text_app f ls last Hc Hls).
  rewrite (scan_last last [] 0%N H1) by lia.
  rewrite app_nil_r; cbn [fst snd].
  destruct (rev (list_ascii_of_string last)) as [| h t] eqn:E.
  - exfalso; apply Hne.
    apply (f_equal (@rev ascii)) in E; rewrite rev_involutive in E.
    rewrite <- (string_of_list_ascii_of_string last), E; reflexivity.
  - rewrite <- E, (token_rev last H2); reflexivity.
Qed.

(** A file whose second and last line has no line feed. *)
Lemma X12_witness :
  scanFile {| Name := "/proc/net/rpc/nfsd";
              contents := text ["rc 8352 2 0"] ++ "io 1 2";
              readErr := None |} = (["rc 8352 2 0"; "io 1 2"], None).
Proof.
  apply (X12_last_line_without_line_feed
           {| Name := "/proc/net/rpc/nfsd";
              contents := text ["rc 8352 2 0"] ++ "io 1 2";
              readErr := None |} ["rc 8352 2 0"] "io 1 2").
  - reflexivity.
  - repeat constructor.
  - vm_compute; reflexivity.
  - discriminate.
Defined.

(** ** Appending files *)

Lemma text_app (a b : list string) :
  text (a ++ b) = (text a ++ text b)%string.
Proof.
  induction a as [| l a IH]; simpl; [reflexivity |].
  rewrite IH, string_app_assoc; reflexivity.
Qed.

Lemma scanLoop_app_both (a b : list string) (stats : NFSdRPCStats.t) :
  scanLoop stats (a ++ b) =
    match scanLoop stats a with
    | Err e => Err e
    | Ok stats' => scanLoop stats' b
    end.
Proof.
  revert stats; induction a as [| l a IH]; simpl; intro stats;
    [reflexivity |].
  destruct (scanLine stats l); [apply IH | reflexivity].
Qed.

Lemma parse_text (ls : list string) :
  Forall (fun l => plainLine l = true) ls ->
  parse (text ls) = scanLoop NFSdRPCStats.zero ls.
Proof.
  intro Hls; unfold parse, NewNFSdRPCStats.
  rewrite (scanFile_text_app _ ls EmptyString);
    [| simpl; rewrite string_app_nil_r; reflexivity | exact Hls].
  simpl; rewrite app_nil_r.
  destruct (scanLoop NFSdRPCStats.zero ls); reflexivity.
Qed.

(** The bytes up to a line feed, and the bytes after it. *)
Lemma scan_app_LF (a : string) (cur : list ascii) (n : N) (b : string) :
  bufio.scan cur n (a ++ String "010" b) =
    match snd (bufio.scan cur n (a ++ LF)) with
    | Some e => bufio.scan cur n (a ++ LF)
    | None =>
        ((fst (bufio.scan cur n (a ++ LF)) ++ fst (bufio.scan [] 0%N b))%list,
         snd (bufio.scan [] 0%N b))
    end.
Proof.
  unfold LF; revert cur n; induction a as [| c a IH]; intros cur n.
  - cbn [String.append bufio.scan].
    change (Ascii.eqb "010" "010") with true; cbv iota.
    destruct (bufio.scan [] 0%N b); reflexivity.
  - cbn [String.append bufio.scan].
    destruct (Ascii.eqb c "010").
    + rewrite (IH [] 0%N).
      destruct (bufio.scan [] 0%N (a ++ String "010" EmptyString))
        as [la [e |]]; cbn [fst snd]; [reflexivity |].
      destruct (bufio.scan [] 0%N b); reflexivity.
    + destruct (bufio.MaxScanTokenSize <=? n + 1)%N; [reflexivity |].
      apply IH.
Qed.

(** X13.  The parse of bytes that end with a line feed, followed by more
    bytes: the error of the first part when its parse fails, and the
    outcome of the parse of the second part otherwise.  Lines that passed
    are not looked at again, and a failure is never repaired by what
    follows. *)
Theorem X13_parse_after_a_line_feed (a b : string) :
  parse (a ++ LF ++ b) =
    match parse (a ++ LF) with
    | Err e => Err e
    | Ok _ => parse b
    end.
Proof.
  unfold parse, NewNFSdRPCStats, scanFile; cbn [contents readErr Name].
  change (a ++ LF ++ b)%string with (a ++ String "010" b)%string.
  rewrite scan_app_LF.
  destruct (bufio.scan [] 0%N (a ++ LF)) as [la [e |]]; cbn [fst snd].
  - destruct (scanLoop NFSdRPCStats.zero la); reflexivity.
  - destruct (bufio.scan [] 0%N b) as [lb eb]; cbn [fst snd option_map].
    rewrite scanLoop_app_both.
    destruct (scanLoop NFSdRPCStats.zero la) as [s |] eqn:E; [| reflexivity].
    apply scanLoop_stats in E; subst s; reflexivity.
Qed.

(** ** The rc line of the kernel, from its bytes to its record *)

Lemma spaceWidth_ascii (c : ascii) (s : string) :
  (strings.byte c <? 128)%N = true ->
  strings.asciiSpace c = false ->
  strings.spaceWidth (String c s) = 0%nat.
Proof.
  intros Hb Hs; apply N.ltb_lt in Hb.
  cbn [strings.spaceWidth]; rewrite Hs.
  destruct s as [| c1 [| c2 s2]]; try reflexivity;
    repeat match goal with
           | |- context [(strings.byte c =? ?k)%N] =>
               destruct (N.eqb_spec (strings.byte c) k); [lia |]
           end;
    reflexivity.
Qed.

Lemma split_word (w rest : string) :
  asciiWord w = true ->
  strings.split 0 (w ++ String " " rest) = (w, strings.Fields rest).
Proof.
  induction w as [| c w IH]; intro H.
  - cbn [String.append strings.split].
    change (strings.spaceWidth (String " " rest)) with 1%nat.
    unfold strings.Fields; destruct (strings.split 0 rest); reflexivity.
  - cbn [asciiWord] in H.
    apply andb_true_iff in H; destruct H as [H Hw].
    apply andb_true_iff in H; destruct H as [Hb Hs].
    apply negb_true_iff in Hs.
    cbn [String.append strings.split].
    rewrite (spaceWidth_ascii c _ Hb Hs), (IH Hw); reflexivity.
Qed.

Lemma split_word_end (w : string) :
  asciiWord w = true -> strings.split 0 w = (w, []).
Proof.
  induction w as [| c w IH]; intro H; [reflexivity |].
  cbn [asciiWord] in H.
  apply andb_true_iff in H; destruct H as [H Hw].
  apply andb_true_iff in H; destruct H as [Hb Hs].
  apply negb_true_iff in Hs.
  cbn [strings.split].
  rewrite (spaceWidth_ascii c _ Hb Hs), (IH Hw); reflexivity.
Qed.

(** A word and a space before more text: the word is the first field. *)
Lemma Fields_word (w rest : string) :
  asciiWord w = true -> w <> EmptyString ->
  strings.Fields (w ++ String " " rest) = w :: strings.Fields rest.
Proof.
  intros Hw Hne; unfold strings.Fields at 1.
  rewrite (split_word w rest Hw).
  destruct w; [contradiction | reflexivity].
Qed.

Lemma Fields_word_end (w : string) :
  asciiWord w = true -> w <> EmptyString -> strings.Fields w = [w].
Proof.
  intros Hw Hne; unfold strings.Fields.
  rewrite (split_word_end w Hw).
  destruct w; [contradiction | reflexivity].
Qed.

Lemma asciiWord_string_of_uint (d : Decimal.uint) :
  asciiWord (DecimalString.NilEmpty.string_of_uint d) = true.
Proof.
  induction d; cbn [DecimalString.NilEmpty.string_of_uint asciiWord];
    [reflexivity | ..]; rewrite IHd; reflexivity.
Qed.

Lemma asciiWord_decimal (n : Z) :
  asciiWord (decimal n) = true /\ decimal n <> EmptyString.
Proof.
  split; [apply asciiWord_string_of_uint |].
  destruct (decimal_first_digit n) as (c & s & -> & _); discriminate.
Qed.

(** X14.  The rc line as the kernel prints it, for counters below
    [2 ^ 63]: the line splits into the key and the three decimal tokens,
    the decoder returns the three counters in Hits, Misses and NoCache,
    and the loop takes the line and goes on, its aggregate unchanged. *)
Theorem X14_kernel_rc_line (hits misses nocache : Z)
        (stats : NFSdRPCStats.t) :
  0 <= hits < 2 ^ 63 ->
  0 <= misses < 2 ^ 63 ->
  0 <= nocache < 2 ^ 63 ->
  strings.Fields (rcLine hits misses nocache) =
    ["rc"; decimal hits; decimal misses; decimal nocache] /\
  parseNFSdReplyCache (tl (strings.Fields (rcLine hits misses nocache))) =
    Ok {| NFSdReplyCache.Hits := hits; NFSdReplyCache.Misses := misses;
          NFSdReplyCache.NoCache := nocache |} /\
  scanLine stats (rcLine hits misses nocache) = Ok stats.
Proof.
  intros Hh Hm Hn.
  destruct (asciiWord_decimal hits) as [Wh Nh].
  destruct (asciiWord_decimal misses) as [Wm Nm].
  destruct (asciiWord_decimal nocache) as [Wn Nn].
  assert (F : strings.Fields (rcLine hits misses nocache) =
              ["rc"; decimal hits; decimal misses; decimal nocache]).
  { unfold rcLine.
    change ("rc " ++ decimal hits ++ " " ++ decimal misses ++ " "
            ++ decimal nocache)%string
      with ("rc" ++ String " " (decimal hits ++ String " "
              (decimal misses ++ String " " (decimal nocache))))%string.
    rewrite Fields_word by (reflexivity || discriminate).
    rewrite (Fields_word _ _ Wh Nh), (Fields_word _ _ Wm Nm),
            (Fields_word_end _ Wn Nn).
    reflexivity. }
  assert (P : parseNFSdReplyCache [decimal hits; decimal misses;
                                   decimal nocache] =
              Ok {| NFSdReplyCache.Hits := hits;
                    NFSdReplyCache.Misses := misses;
                    NFSdReplyCache.NoCache := nocache |}).
  { unfold parseNFSdReplyCache.
    rewrite !ParseInt_decimal by lia.
    destruct (Z.ltb_spec hits (2 ^ 63)); [| lia].
    destruct (Z.ltb_spec misses (2 ^ 63)); [| lia].
    destruct (Z.ltb_spec nocache (2 ^ 63)); [| lia].
    unfold uint64; rewrite two64_value.
    rewrite !Z.mod_small by lia; reflexivity. }
  split; [exact F |].
  split; [rewrite F; exact P |].
  rewrite (scanLine_rc stats _ _ _ F), P; reflexivity.
Qed.

(** The rc line of the kernel with the counters 8352, 2 and 0. *)
Lemma X14_witness :
  rcLine 8352 2 0 = "rc 8352 2 0" /\
  strings.Fields (rcLine 8352 2 0) =
    ["rc"; decimal 8352; decimal 2; decimal 0] /\
  parseNFSdReplyCache (tl (strings.Fields (rcLine 8352 2 0))) =
    Ok {| NFSdReplyCache.Hits := 8352; NFSdReplyCache.Misses := 2;
          NFSdReplyCache.NoCache := 0 |} /\
  scanLine NFSdRPCStats.zero (rcLine 8352 2 0) = Ok NFSdRPCStats.zero.
Proof.
  split; [vm_compute; reflexivity |].
  apply (X14_kernel_rc_line 8352 2 0 NFSdRPCStats.zero); lia.
Defined.
